(** * template-sqlc: the domain layer (entities, converters, events, user service)

    A shallow embedding of the Go packages [entities], [events], [converters]
    and [services], and the properties of the specification that are
    settled against them.

    Conventions of the embedding.
    - A Go [string] is a byte string: Rocq's [string], whose characters are
      the bytes.  [len(s)] is [String.length s].
    - A Go [(T, error)] result is a pair [(T * option E)]: the second
      component is [None] for a [nil] error.  Where the caller only ever
      reads one of the two, a sum [E + T] is used and said so.
    - [time.Now()] and [uuid.New()] are inputs: a method that reads the clock
      takes the reading as an argument [now]; the service threads a world
      with a clock and an entropy source.
    - Pointer receivers become functions that return the updated record. *)

From Stdlib Require Import ZArith NArith Ascii String List Bool Lia.
From Stdlib.Strings Require Import Byte.
From stdpp Require Import base option strings gmap list.
Import ListNotations.

Local Open Scope string_scope.

(** ** Go runtime: package [strings] *)

Definition chr (n : N) : ascii := ascii_of_N n.

Definition bytes_of (l : list N) : string := string_of_list_ascii (map chr l).

(** The UTF-8 encodings of the code points for which [unicode.IsSpace]
    holds: U+0009..U+000D, U+0020, U+0085, U+00A0, U+1680, U+2000..U+200A,
    U+2028, U+2029, U+202F, U+205F, U+3000. *)
Definition spaceRunes : list string :=
  map bytes_of
    [ [9]; [10]; [11]; [12]; [13]; [32];
      [194; 133]; [194; 160];
      [225; 154; 128];
      [226; 128; 128]; [226; 128; 129]; [226; 128; 130]; [226; 128; 131];
      [226; 128; 132]; [226; 128; 133]; [226; 128; 134]; [226; 128; 135];
      [226; 128; 136]; [226; 128; 137]; [226; 128; 138];
      [226; 128; 168]; [226; 128; 169]; [226; 128; 175];
      [226; 129; 159];
      [227; 128; 128] ]%N.

Fixpoint stripPrefix (p s : string) : option string :=
  match p, s with
  | EmptyString, _ => Some s
  | String a p', String b s' => if Ascii.eqb a b then stripPrefix p' s' else None
  | String _ _, EmptyString => None
  end.

(** The rest of [s] after one leading rune of [runes], if it starts with one. *)
Fixpoint stripOneOf (runes : list string) (s : string) : option string :=
  match runes with
  | [] => None
  | r :: rs =>
      match stripPrefix r s with
      | Some rest => Some rest
      | None => stripOneOf rs s
      end
  end.

Fixpoint trimLeftRunes (fuel : nat) (runes : list string) (s : string) : string :=
  match fuel with
  | O => s
  | S fuel' =>
      match stripOneOf runes s with
      | Some rest => trimLeftRunes fuel' runes rest
      | None => s
      end
  end.

Definition TrimLeftSpace (s : string) : string :=
  trimLeftRunes (String.length s) spaceRunes s.

(** Trailing runes are removed on the reversed string, against the reversed
    encodings. *)
Definition TrimRightSpace (s : string) : string :=
  String.rev
    (trimLeftRunes (String.length s) (map String.rev spaceRunes) (String.rev s)).

(** [strings.TrimSpace]: all leading and trailing white space removed. *)
Definition TrimSpace (s : string) : string := TrimRightSpace (TrimLeftSpace s).

Definition isUpperASCII (c : ascii) : bool :=
  let n := N_of_ascii c in ((65 <=? n) && (n <=? 90))%N.

Definition lowerASCII (c : ascii) : ascii :=
  if isUpperASCII c then chr (N_of_ascii c + 32) else c.

Fixpoint mapBytes (f : ascii -> ascii) (s : string) : string :=
  match s with
  | EmptyString => EmptyString
  | String c s' => String (f c) (mapBytes f s')
  end.

(** [strings.ToLower] on its ASCII path (the input has no byte above
    127): the letters A..Z are mapped to a..z.  On other input Go maps
    [unicode.ToLower] over the runes; the development is parametric in
    [ToLower] and uses this function as its instance. *)
Definition ToLowerASCII (s : string) : string := mapBytes lowerASCII s.

(** ** Go runtime: package [time] *)

(** A [time.Time] is an instant, in nanoseconds since the zero time
    (January 1, year 1, 00:00:00 UTC), and a location.  [time.Time{}] is
    instant 0 with no location.  The monotonic reading that [time.Now()]
    attaches is not kept apart: a comparison of two times is a comparison of
    their instants, and [Add] does not saturate. *)
Record Time := mkTime { instant : Z; location : option string }.

Definition Duration := Z.

Definition Time_zero : Time := mkTime 0 None.

Definition Time_IsZero (t : Time) : bool := (instant t =? 0)%Z.

(** [t.After(u)]: the instant of [t] is after that of [u]. *)
Definition Time_After (t u : Time) : bool := (instant u <? instant t)%Z.

Definition Time_Before (t u : Time) : bool := (instant t <? instant u)%Z.

(** [t.Equal(u)]: the same instant, whatever the locations. *)
Definition Time_Equal (t u : Time) : bool := (instant t =? instant u)%Z.

Definition Time_Add (t : Time) (d : Duration) : Time :=
  mkTime (instant t + d)%Z (location t).

Definition Hour : Duration := (3600 * 1000000000)%Z.

(** ** Package [github.com/google/uuid] *)

(** [type UUID [16]byte].  The array is a list of bytes; [UUID_wf] is the
    length the Go type fixes. *)
Abbreviation UUID := (list byte) (only parsing).

#[global] Instance byte_eq_decision : EqDecision byte := Byte.byte_eq_dec.

Definition UUID_wf (u : UUID) : Prop := length u = 16%nat.

(** [uuid.Nil] *)
Definition UUID_Nil : UUID := repeat x00 16.

Definition UUID_eqb (u v : UUID) : bool := bool_decide (u = v).

Definition hextable : list ascii := list_ascii_of_string "0123456789abcdef".

Definition hexDigit (n : N) : ascii := nth (N.to_nat n) hextable "0"%char.

(** [hex.Encode]: two lower-case digits for each byte. *)
Fixpoint hexEncode (l : list byte) : list ascii :=
  match l with
  | [] => []
  | b :: l' => hexDigit (Byte.to_N b / 16) :: hexDigit (Byte.to_N b mod 16) :: hexEncode l'
  end.

Definition slice {A} (l : list A) (lo hi : nat) : list A := firstn (hi - lo) (skipn lo l).

(** [UUID.String]: xxxxxxxx-xxxx-xxxx-xxxx-xxxxxxxxxxxx *)
Definition UUID_String (u : UUID) : string :=
  string_of_list_ascii
    (hexEncode (slice u 0 4) ++ "-"%char :: hexEncode (slice u 4 6) ++
     "-"%char :: hexEncode (slice u 6 8) ++ "-"%char :: hexEncode (slice u 8 10) ++
     "-"%char :: hexEncode (slice u 10 16)).

(** The table [xvalues]: the value of a hexadecimal digit, 255 otherwise. *)
Definition xvalue (c : ascii) : N :=
  let n := N_of_ascii c in
  if ((48 <=? n) && (n <=? 57))%N then (n - 48)%N
  else if ((65 <=? n) && (n <=? 70))%N then (n - 55)%N
  else if ((97 <=? n) && (n <=? 102))%N then (n - 87)%N
  else 255%N.

(** [xtob]: the byte of two hexadecimal digits, and whether both are digits. *)
Definition xtob (x1 x2 : ascii) : byte * bool :=
  let b1 := xvalue x1 in
  let b2 := xvalue x2 in
  (default x00 (Byte.of_N (N.lor (N.shiftl b1 4) b2 mod 256)),
   (negb (b1 =? 255) && negb (b2 =? 255))%N).

Definition byteAt (s : list ascii) (i : nat) : ascii := nth i s "000"%char.

Inductive uuidError :=
| InvalidLength (n : nat)
| InvalidURNPrefix (p : string)
| InvalidFormat
| InvalidBytes (n : nat).

(** The decoding loop of the hyphenated form: a byte is stored only when
    both digits are valid; at the first invalid pair the bytes decoded so
    far are returned, the rest still zero. *)
Fixpoint decodeGroups (s : list ascii) (offsets : list nat) : UUID * bool :=
  match offsets with
  | [] => ([], true)
  | x :: xs =>
      let '(v, ok) := xtob (byteAt s x) (byteAt s (x + 1)) in
      if ok then let '(rest, ok') := decodeGroups s xs in (v :: rest, ok')
      else (repeat x00 (length offsets), false)
  end.

(** The decoding loop of the 32-digit form: the byte is stored before the
    validity of the pair is looked at. *)
Fixpoint decodePlain (s : list ascii) (offsets : list nat) : UUID * bool :=
  match offsets with
  | [] => ([], true)
  | x :: xs =>
      let '(v, ok) := xtob (byteAt s x) (byteAt s (x + 1)) in
      if ok then let '(rest, ok') := decodePlain s xs in (v :: rest, ok')
      else (v :: repeat x00 (length xs), false)
  end.

Definition hyphenated (s : list ascii) : bool :=
  Ascii.eqb (byteAt s 8) "-" && Ascii.eqb (byteAt s 13) "-" &&
  Ascii.eqb (byteAt s 18) "-" && Ascii.eqb (byteAt s 23) "-".

Definition groupOffsets : list nat :=
  [0; 2; 4; 6; 9; 11; 14; 16; 19; 21; 24; 26; 28; 30; 32; 34]%nat.

Definition plainOffsets : list nat :=
  [0; 2; 4; 6; 8; 10; 12; 14; 16; 18; 20; 22; 24; 26; 28; 30]%nat.

Definition parseStandard (s : list ascii) : UUID * option uuidError :=
  if hyphenated s then
    let '(u, ok) := decodeGroups s groupOffsets in
    (u, if ok then None else Some InvalidFormat)
  else (UUID_Nil, Some InvalidFormat).

(** [uuid.Parse]: the 36-byte standard form, the same behind [urn:uuid:]
    (in any case) or between two more bytes, or 32 hexadecimal digits. *)
Definition UUID_Parse (str : string) : UUID * option uuidError :=
  let s := list_ascii_of_string str in
  match length s with
  | 36%nat => parseStandard s
  | 45%nat =>
      let p := string_of_list_ascii (firstn 9 s) in
      if bool_decide (ToLowerASCII p = "urn:uuid:")
      then parseStandard (skipn 9 s) else (UUID_Nil, Some (InvalidURNPrefix p))
  | 38%nat => parseStandard (skipn 1 s)
  | 32%nat =>
      let '(u, ok) := decodePlain s plainOffsets in
      (u, if ok then None else Some InvalidFormat)
  | n => (UUID_Nil, Some (InvalidLength n))
  end.

(** [uuid.FromBytes]: exactly 16 bytes, copied. *)
Definition UUID_FromBytes (b : list byte) : UUID * option uuidError :=
  if (length b =? 16)%nat then (b, None) else (UUID_Nil, Some (InvalidBytes (length b))).

(** ** Go runtime: [interface{}] payloads and [net.IP] *)

(** The dynamically typed values the domain stores in metadata maps. *)
Inductive Any :=
| AnyNil
| AnyBool (b : bool)
| AnyInt (z : Z)
| AnyString (s : string).

(** A Go map is a reference: [None] is the [nil] map. *)
Abbreviation GoMap := (option (gmap string Any)) (only parsing).

Abbreviation IP := (list byte) (only parsing).

(** ** Package [entities]: errors *)

(** The error values that cross the domain layer.  [WrappedError] is
    [fmt.Errorf("text: %w", cause)]; [ForeignError] is an error made by a
    collaborator behind an interface (a repository, a validator, a
    publisher). *)
#[warnings="-register-all"]
Inductive error :=
| ValidationError (Field Message : string)
| NotFoundError (Resource Message : string)
| ConflictError (Resource Message : string)
| AuthenticationError (Message : string)
| AuthorizationError (Message : string)
| InternalError (Message : string) (Cause : option error)
| WrappedError (text : string) (cause : error)
| ForeignError (text : string).

Definition NewValidationError (field message : string) : error := ValidationError field message.
Definition NewNotFoundError (resource message : string) : error := NotFoundError resource message.
Definition NewConflictError (resource message : string) : error := ConflictError resource message.
Definition NewAuthenticationError (message : string) : error := AuthenticationError message.
Definition NewAuthorizationError (message : string) : error := AuthorizationError message.

Definition ErrInvalidEmail := NewValidationError "email" "must be a valid email address".
Definition ErrInvalidUsername := NewValidationError "username" "must be 3-50 characters".
Definition ErrInvalidPasswordHash := NewValidationError "password_hash" "must be a valid hash".
Definition ErrInvalidFirstName := NewValidationError "first_name" "must not be empty".
Definition ErrInvalidLastName := NewValidationError "last_name" "must not be empty".
Definition ErrInvalidUserStatus := NewValidationError "status" "must be a valid user status".
Definition ErrInvalidUserRole := NewValidationError "role" "must be a valid user role".

Definition ErrUserNotFound := NewNotFoundError "user" "user not found".
Definition ErrUserAlreadyExists := NewConflictError "user" "user already exists".
Definition ErrInvalidCredentials := NewAuthenticationError "invalid credentials".
Definition ErrAccountSuspended := NewAuthorizationError "account suspended".
Definition ErrAccountInactive := NewAuthorizationError "account inactive".
Definition ErrInsufficientPrivileges := NewAuthorizationError "insufficient privileges".

Definition ErrSessionNotFound := NewNotFoundError "session" "session not found".
Definition ErrSessionExpired := NewAuthenticationError "session expired".
Definition ErrInvalidSessionToken := NewAuthenticationError "invalid session token".

Definition isValidationError (e : error) : bool :=
  match e with ValidationError _ _ => true | _ => false end.

Definition isAuthorizationError (e : error) : bool :=
  match e with AuthorizationError _ => true | _ => false end.

(** The field a validation error is about. *)
Definition errorField (e : error) : option string :=
  match e with ValidationError f _ => Some f | _ => None end.

(** ** Package [entities]: value objects that need nothing from outside *)

Abbreviation UserID := Z (only parsing).
Abbreviation Email := string (only parsing).
Abbreviation Username := string (only parsing).
Abbreviation PasswordHash := string (only parsing).
Abbreviation FirstName := string (only parsing).
Abbreviation LastName := string (only parsing).
Abbreviation UserStatus := string (only parsing).
Abbreviation UserRole := string (only parsing).
Abbreviation UserMetadata := GoMap (only parsing).

Definition Email_String (e : Email) : string := e.
Definition Username_String (u : Username) : string := u.

Definition NewUsername (username : string) : Username * option error :=
  if ((String.length username <? 3) || (50 <? String.length username))%nat
  then ("", Some ErrInvalidUsername)
  else (TrimSpace username, None).

Definition NewPasswordHash (hash : string) : PasswordHash * option error :=
  if (String.length hash <? 32)%nat then ("", Some ErrInvalidPasswordHash) else (hash, None).

Definition NewFirstName (name : string) : FirstName * option error :=
  let name := TrimSpace name in
  if (String.length name =? 0)%nat then ("", Some ErrInvalidFirstName) else (name, None).

Definition NewLastName (name : string) : LastName * option error :=
  let name := TrimSpace name in
  if (String.length name =? 0)%nat then ("", Some ErrInvalidLastName) else (name, None).

Definition UserStatusActive : UserStatus := "active".
Definition UserStatusInactive : UserStatus := "inactive".
Definition UserStatusSuspended : UserStatus := "suspended".
Definition UserStatusPending : UserStatus := "pending".

Definition UserStatus_String (s : UserStatus) : string := s.

Definition UserStatus_IsValid (s : UserStatus) : bool :=
  String.eqb s UserStatusActive || String.eqb s UserStatusInactive ||
  String.eqb s UserStatusSuspended || String.eqb s UserStatusPending.

Definition UserRoleUser : UserRole := "user".
Definition UserRoleAdmin : UserRole := "admin".
Definition UserRoleModerator : UserRole := "moderator".

Definition UserRole_String (r : UserRole) : string := r.

Definition UserRole_IsValid (r : UserRole) : bool :=
  String.eqb r UserRoleUser || String.eqb r UserRoleAdmin || String.eqb r UserRoleModerator.

Definition NewUserMetadata : UserMetadata := Some ∅.

(** [m[key] = value]; writing to the [nil] map panics ([None]). *)
Definition UserMetadata_Set (m : UserMetadata) (key : string) (value : Any) : option UserMetadata :=
  match m with
  | Some g => Some (Some (<[key := value]> g))
  | None => None
  end.

(** ** Package [entities]: the [User] aggregate *)

Record User := mkUser {
  id : UserID;
  uuid : UUID;
  email : Email;
  username : Username;
  password : PasswordHash;
  firstName : FirstName;
  lastName : LastName;
  status : UserStatus;
  role : UserRole;
  isVerified : bool;
  metadata : UserMetadata;
  tags : list string;
  createdAt : Time;
  updatedAt : Time;
  lastLoginAt : option Time
}.

Definition set_firstName (v : FirstName) (u : User) : User :=
  mkUser (id u) (uuid u) (email u) (username u) (password u) v (lastName u) (status u)
    (role u) (isVerified u) (metadata u) (tags u) (createdAt u) (updatedAt u) (lastLoginAt u).

Definition set_lastName (v : LastName) (u : User) : User :=
  mkUser (id u) (uuid u) (email u) (username u) (password u) (firstName u) v (status u)
    (role u) (isVerified u) (metadata u) (tags u) (createdAt u) (updatedAt u) (lastLoginAt u).

Definition set_status (v : UserStatus) (u : User) : User :=
  mkUser (id u) (uuid u) (email u) (username u) (password u) (firstName u) (lastName u) v
    (role u) (isVerified u) (metadata u) (tags u) (createdAt u) (updatedAt u) (lastLoginAt u).

Definition set_role (v : UserRole) (u : User) : User :=
  mkUser (id u) (uuid u) (email u) (username u) (password u) (firstName u) (lastName u)
    (status u) v (isVerified u) (metadata u) (tags u) (createdAt u) (updatedAt u) (lastLoginAt u).

Definition set_isVerified (v : bool) (u : User) : User :=
  mkUser (id u) (uuid u) (email u) (username u) (password u) (firstName u) (lastName u)
    (status u) (role u) v (metadata u) (tags u) (createdAt u) (updatedAt u) (lastLoginAt u).

Definition set_metadata (v : UserMetadata) (u : User) : User :=
  mkUser (id u) (uuid u) (email u) (username u) (password u) (firstName u) (lastName u)
    (status u) (role u) (isVerified u) v (tags u) (createdAt u) (updatedAt u) (lastLoginAt u).

Definition set_tags (v : list string) (u : User) : User :=
  mkUser (id u) (uuid u) (email u) (username u) (password u) (firstName u) (lastName u)
    (status u) (role u) (isVerified u) (metadata u) v (createdAt u) (updatedAt u) (lastLoginAt u).

Definition set_updatedAt (v : Time) (u : User) : User :=
  mkUser (id u) (uuid u) (email u) (username u) (password u) (firstName u) (lastName u)
    (status u) (role u) (isVerified u) (metadata u) (tags u) (createdAt u) v (lastLoginAt u).

Definition set_lastLoginAt (v : option Time) (u : User) : User :=
  mkUser (id u) (uuid u) (email u) (username u) (password u) (firstName u) (lastName u)
    (status u) (role u) (isVerified u) (metadata u) (tags u) (createdAt u) (updatedAt u) v.

(** [NewUser]; [fresh] is the result of [uuid.New()] and [now] that of
    [time.Now()].  The [id] and [lastLoginAt] fields keep their zero values.
    The result is [(nil, err)] or [(user, nil)]: a sum. *)
Definition NewUser (fresh : UUID) (now : Time)
    (email : Email) (username : Username) (password : PasswordHash)
    (firstName : FirstName) (lastName : LastName)
    (status : UserStatus) (role : UserRole)
    (metadata : UserMetadata) (tags : list string) : error + User :=
  if negb (UserStatus_IsValid status) then inl ErrInvalidUserStatus
  else if negb (UserRole_IsValid role) then inl ErrInvalidUserRole
  else inr (mkUser 0%Z fresh email username password firstName lastName status role
              false metadata tags now now None).

Definition User_IsActive (u : User) : bool := String.eqb (status u) UserStatusActive.

(** [UpdateProfile]: each argument is a pointer, [None] for [nil]. *)
Definition User_UpdateProfile (now : Time) (u : User)
    (firstName : option FirstName) (lastName : option LastName)
    (metadata : option UserMetadata) (tags : option (list string)) : User * option error :=
  let u := match firstName with Some v => set_firstName v u | None => u end in
  let u := match lastName with Some v => set_lastName v u | None => u end in
  let u := match metadata with Some v => set_metadata v u | None => u end in
  let u := match tags with Some v => set_tags v u | None => u end in
  (set_updatedAt now u, None).

Definition User_ChangeStatus (now : Time) (u : User) (status : UserStatus) : User * option error :=
  if negb (UserStatus_IsValid status) then (u, Some ErrInvalidUserStatus)
  else (set_updatedAt now (set_status status u), None).

Definition User_ChangeRole (now : Time) (u : User) (role : UserRole) : User * option error :=
  if negb (UserRole_IsValid role) then (u, Some ErrInvalidUserRole)
  else (set_updatedAt now (set_role role u), None).

Definition User_Verify (now : Time) (u : User) : User :=
  set_updatedAt now (set_isVerified true u).

Definition User_RecordLogin (now : Time) (u : User) : User :=
  set_updatedAt now (set_lastLoginAt (Some now) u).

(** The index of the first element equal to [tag], as the [range] loops
    of [AddTag] and [RemoveTag] find it. *)
Fixpoint indexOfTag (tag : string) (l : list string) : option nat :=
  match l with
  | [] => None
  | x :: l' => if String.eqb x tag then Some O else option_map S (indexOfTag tag l')
  end.

Definition User_AddTag (now : Time) (u : User) (tag : string) : User :=
  match indexOfTag tag (tags u) with
  | Some _ => u
  | None => set_updatedAt now (set_tags (tags u ++ [tag]) u)
  end.

Definition User_RemoveTag (now : Time) (u : User) (tag : string) : User :=
  match indexOfTag tag (tags u) with
  | Some i => set_updatedAt now (set_tags (firstn i (tags u) ++ skipn (i + 1) (tags u)) u)
  | None => u
  end.

(** ** Package [entities]: the [UserSession] entity *)

Abbreviation SessionID := Z (only parsing).
Abbreviation SessionToken := UUID (only parsing).

Record SessionDeviceInfo := mkDeviceInfo {
  Platform : string;
  Device : string;
  Browser : string;
  Version : string;
  Metadata : GoMap
}.

Definition NewSessionDeviceInfo : SessionDeviceInfo := mkDeviceInfo "" "" "" "" (Some ∅).

(** [SetMetadata] has a value receiver: a map made for a [nil] field is
    lost with the copy, an insertion into an existing map is seen by every
    holder of that map. *)
Definition SessionDeviceInfo_SetMetadata (d : SessionDeviceInfo) (key : string) (value : Any)
    : SessionDeviceInfo :=
  match Metadata d with
  | Some g => mkDeviceInfo (Platform d) (Device d) (Browser d) (Version d) (Some (<[key := value]> g))
  | None => d
  end.

Record UserSession := mkSession {
  s_id : SessionID;
  s_userID : UserID;
  s_token : SessionToken;
  s_deviceInfo : SessionDeviceInfo;
  s_ipAddress : IP;
  s_userAgent : string;
  s_createdAt : Time;
  s_expiresAt : Time;
  s_isActive : bool
}.

(** [NewUserSession]; [fresh] is the token from [uuid.New()], [now] the
    clock reading. *)
Definition NewUserSession (fresh : UUID) (now : Time)
    (userID : UserID) (ipAddress : IP) (userAgent : string)
    (deviceInfo : SessionDeviceInfo) (duration : Duration) : UserSession :=
  mkSession 0%Z userID fresh deviceInfo ipAddress userAgent now (Time_Add now duration) true.

(** [IsExpired]: [time.Now().After(s.expiresAt)] *)
Definition UserSession_IsExpired (now : Time) (s : UserSession) : bool :=
  Time_After now (s_expiresAt s).

Definition UserSession_IsValid (now : Time) (s : UserSession) : bool :=
  s_isActive s && negb (UserSession_IsExpired now s).

Definition UserSession_Deactivate (s : UserSession) : UserSession :=
  mkSession (s_id s) (s_userID s) (s_token s) (s_deviceInfo s) (s_ipAddress s)
    (s_userAgent s) (s_createdAt s) (s_expiresAt s) false.

Definition UserSession_Extend (now : Time) (s : UserSession) (duration : Duration) : UserSession :=
  mkSession (s_id s) (s_userID s) (s_token s) (s_deviceInfo s) (s_ipAddress s)
    (s_userAgent s) (s_createdAt s) (Time_Add now duration) (s_isActive s).

Definition SessionDurationShort : Duration := (24 * Hour)%Z.
Definition SessionDurationMedium : Duration := (7 * 24 * Hour)%Z.
Definition SessionDurationLong : Duration := (30 * 24 * Hour)%Z.
Definition SessionDurationRemember : Duration := (90 * 24 * Hour)%Z.

(** ** Package [events] *)

Abbreviation EventType := string (only parsing).

Definition EventUserCreated : EventType := "user.created".
Definition EventUserUpdated : EventType := "user.updated".
Definition EventUserLogin : EventType := "user.login".
Definition EventUserLoginFail : EventType := "user.login.failed".
Definition EventUserVerified : EventType := "user.verified".
Definition EventRoleChanged : EventType := "role.changed".

(** One entry of the change map of an update: the old and the new value
    of a field. *)
Inductive FieldValue :=
| NameValue (s : string)
| MetadataValue (m : UserMetadata)
| TagsValue (l : list string).

Record Change := mkChange { old : FieldValue; new : FieldValue }.

(** The [Data] payload of an event: one of the event structs. *)
Inductive EventData :=
| UserCreatedEvent (UserID Email Username FirstName LastName Role Status : string)
| UserUpdatedEvent (UserID : string) (Changes : gmap string Change) (UpdatedBy : string)
| UserLoginEvent (UserID IPAddress UserAgent Device : string) (Success : bool)
| UserVerifiedEvent (UserID Method : string) (Timestamp : Time)
| RoleChangedEvent (UserID OldRole NewRole ChangedBy : string).

Record UserEvent := mkEvent {
  ev_ID : string;
  ev_Type : EventType;
  ev_UserID : string;
  ev_Data : EventData;
  ev_Timestamp : Time;
  ev_Version : string
}.

(** [NewUserEvent]; [fresh] is [uuid.New()], [now] is [time.Now()]. *)
Definition NewUserEvent (fresh : UUID) (now : Time)
    (eventType : EventType) (userID : string) (data : EventData) : UserEvent :=
  mkEvent (UUID_String fresh) eventType userID data now "1.0".

Definition UserCreated (fresh : UUID) (now : Time)
    (userID email username firstName lastName role status : string) : UserEvent :=
  NewUserEvent fresh now EventUserCreated userID
    (UserCreatedEvent userID email username firstName lastName role status).

Definition UserUpdated (fresh : UUID) (now : Time)
    (userID : string) (changes : gmap string Change) (updatedBy : string) : UserEvent :=
  NewUserEvent fresh now EventUserUpdated userID (UserUpdatedEvent userID changes updatedBy).

Definition UserLoggedIn (fresh : UUID) (now : Time)
    (userID ipAddress userAgent device : string) : UserEvent :=
  NewUserEvent fresh now EventUserLogin userID
    (UserLoginEvent userID ipAddress userAgent device true).

Definition UserLoginFailed (fresh : UUID) (now : Time)
    (userID ipAddress userAgent device : string) : UserEvent :=
  NewUserEvent fresh now EventUserLoginFail userID
    (UserLoginEvent userID ipAddress userAgent device false).

Definition RoleChanged (fresh : UUID) (now : Time)
    (userID oldRole newRole changedBy : string) : UserEvent :=
  NewUserEvent fresh now EventRoleChanged userID
    (RoleChangedEvent userID oldRole newRole changedBy).

(** The [device] argument of a login event: the service passes the reason
    of a failed login through it. *)
Definition loginDevice (e : UserEvent) : option string :=
  match ev_Data e with
  | UserLoginEvent _ _ _ device _ => Some device
  | _ => None
  end.

(** The [EventPublisher] interface: an implementation has a state and the
    two methods, each returning its error. *)
Class EventPublisher (P : Type) := {
  Publish : P -> UserEvent -> P * option error;
  PublishBatch : P -> list UserEvent -> P * option error
}.

Record InMemoryEventPublisher := mkInMemory { events : list UserEvent }.

Definition NewInMemoryEventPublisher : InMemoryEventPublisher := mkInMemory [].

Definition InMemory_Publish (p : InMemoryEventPublisher) (event : UserEvent)
    : InMemoryEventPublisher * option error :=
  (mkInMemory (events p ++ [event]), None).

Definition InMemory_PublishBatch (p : InMemoryEventPublisher) (evs : list UserEvent)
    : InMemoryEventPublisher * option error :=
  (mkInMemory (events p ++ evs), None).

Definition InMemory_Events (p : InMemoryEventPublisher) : list UserEvent := events p.

Definition InMemory_Clear (p : InMemoryEventPublisher) : InMemoryEventPublisher := mkInMemory [].

#[global] Instance InMemoryEventPublisher_EventPublisher : EventPublisher InMemoryEventPublisher :=
  {| Publish := InMemory_Publish; PublishBatch := InMemory_PublishBatch |}.

(** A call on the publisher, and a run of calls from a given state: the
    errors returned, in order, and the final state. *)
Inductive PublisherCall :=
| CallPublish (event : UserEvent)
| CallPublishBatch (evs : list UserEvent).

Definition InMemory_call (p : InMemoryEventPublisher) (c : PublisherCall)
    : InMemoryEventPublisher * option error :=
  match c with
  | CallPublish e => InMemory_Publish p e
  | CallPublishBatch es => InMemory_PublishBatch p es
  end.

Fixpoint InMemory_run (p : InMemoryEventPublisher) (calls : list PublisherCall)
    : InMemoryEventPublisher * list (option error) :=
  match calls with
  | [] => (p, [])
  | c :: cs =>
      let '(p1, r) := InMemory_call p c in
      let '(p2, rs) := InMemory_run p1 cs in
      (p2, r :: rs)
  end.

(** The events handed over by a call, in the order given. *)
Definition published (c : PublisherCall) : list UserEvent :=
  match c with
  | CallPublish e => [e]
  | CallPublishBatch es => es
  end.

(** ** Package [converters] *)

(** The [interface{}] values that travel between the domain and a driver. *)
Inductive DBValue :=
| DBNil
| DBString (s : string)
| DBBytes (b : list byte)
| DBUUID (u : UUID)
| DBTime (t : Time)
| DBBool (b : bool)
| DBInt64 (z : Z)
| DBInt (z : Z)
| DBFloat (bits : Z).

(** The errors a converter returns: its own [ConversionError], or the error
    of the library or constructor it delegates to. *)
Inductive convError :=
| ConversionError (Message : string) (Value : DBValue)
| UUIDFailure (e : uuidError)
| TimeFailure (text : string)
| DomainFailure (e : error).

Definition NewConversionError (message : string) (value : DBValue) : convError :=
  ConversionError message value.

Definition isConversionError (e : convError) : bool :=
  match e with ConversionError _ _ => true | _ => false end.

Definition liftUUID (r : UUID * option uuidError) : UUID * option convError :=
  (fst r, option_map UUIDFailure (snd r)).

Definition SQLiteUUIDConverter_DomainToDB (domain : UUID) : DBValue :=
  if UUID_eqb domain UUID_Nil then DBNil else DBString (UUID_String domain).

Definition SQLiteUUIDConverter_DBToDomain (db : DBValue) : UUID * option convError :=
  match db with
  | DBNil => (UUID_Nil, None)
  | DBString str => liftUUID (UUID_Parse str)
  | _ => (UUID_Nil, Some (NewConversionError "expected string for UUID" db))
  end.

Definition PostgresUUIDConverter_DomainToDB (domain : UUID) : DBValue := DBUUID domain.

Definition PostgresUUIDConverter_DBToDomain (db : DBValue) : UUID * option convError :=
  match db with
  | DBNil => (UUID_Nil, None)
  | DBUUID uuidObj => (uuidObj, None)
  | DBString str => liftUUID (UUID_Parse str)
  | _ => (UUID_Nil, Some (NewConversionError "expected UUID or string" db))
  end.

Definition MySQLUUIDConverter_DomainToDB (domain : UUID) : DBValue := DBBytes domain.

Definition MySQLUUIDConverter_DBToDomain (db : DBValue) : UUID * option convError :=
  match db with
  | DBNil => (UUID_Nil, None)
  | DBBytes b => liftUUID (UUID_FromBytes b)
  | DBString str => liftUUID (UUID_Parse str)
  | _ => (UUID_Nil, Some (NewConversionError "expected bytes or string for UUID" db))
  end.

Definition SQLiteTimeConverter_DomainToDB (domain : Time) : DBValue :=
  if Time_IsZero domain then DBNil else DBTime domain.

Definition SQLiteBoolConverter_DomainToDB (domain : bool) : DBValue := DBBool domain.

Definition SQLiteBoolConverter_DBToDomain (db : DBValue) : bool * option convError :=
  match db with
  | DBNil => (false, None)
  | DBBool v => (v, None)
  | DBInt64 v => (negb (v =? 0)%Z, None)
  | DBInt v => (negb (v =? 0)%Z, None)
  | DBString v => (String.eqb v "true" || String.eqb v "1", None)
  | _ => (false, Some (NewConversionError "expected bool, int, or string" db))
  end.

Definition DefaultUserStatusConverter_DomainToDB (domain : UserStatus) : string :=
  UserStatus_String domain.

Definition DefaultUserStatusConverter_DBToDomain (db : string) : UserStatus * option convError :=
  let status : UserStatus := db in
  if negb (UserStatus_IsValid status)
  then (UserStatusActive, Some (NewConversionError "invalid user status" (DBString db)))
  else (status, None).

Definition DefaultUserRoleConverter_DomainToDB (domain : UserRole) : string :=
  UserRole_String domain.

Definition DefaultUserRoleConverter_DBToDomain (db : string) : UserRole * option convError :=
  let role : UserRole := db in
  if negb (UserRole_IsValid role)
  then (UserRoleUser, Some (NewConversionError "invalid user role" (DBString db)))
  else (role, None).

Definition DefaultSessionTokenConverter_DomainToDB (domain : SessionToken) : DBValue :=
  DBString (UUID_String domain).

Definition DefaultSessionTokenConverter_DBToDomain (db : DBValue)
    : SessionToken * option convError :=
  match db with
  | DBString v =>
      match UUID_Parse v with
      | (parsed, None) => (parsed, None)
      | (_, Some _) => (UUID_Nil, Some (NewConversionError "invalid UUID format" db))
      end
  | DBUUID v => (v, None)
  | DBBytes v =>
      match UUID_FromBytes v with
      | (parsed, None) => (parsed, None)
      | (_, Some _) => (UUID_Nil, Some (NewConversionError "invalid UUID bytes" db))
      end
  | _ => (UUID_Nil, Some (NewConversionError "expected string, UUID, or bytes" db))
  end.

(** ** A shape check for the examples *)

Definition localPartByte (c : ascii) : bool :=
  let n := N_of_ascii c in
  (((48 <=? n) && (n <=? 57)) || ((65 <=? n) && (n <=? 90)) || ((97 <=? n) && (n <=? 122))
   || (n =? 46) || (n =? 95) || (n =? 37) || (n =? 43) || (n =? 45))%N.

Definition domainByte (c : ascii) : bool :=
  let n := N_of_ascii c in
  (((48 <=? n) && (n <=? 57)) || ((65 <=? n) && (n <=? 90)) || ((97 <=? n) && (n <=? 122))
   || (n =? 46) || (n =? 45))%N.

Fixpoint splitAt (sep : ascii) (s : list ascii) : option (list ascii * list ascii) :=
  match s with
  | [] => None
  | c :: s' =>
      if Ascii.eqb c sep then Some ([], s')
      else match splitAt sep s' with
           | Some (l, r) => Some (c :: l, r)
           | None => None
           end
  end.

(** Modelled from the spec: [isValidEmail], which [NewEmail] calls, is
    defined in none of the package files at hand; the specification says
    only that it is "a standard email-shape check".  The development takes the check as a parameter;
    this one (a non-empty local part, one [@], a dotted domain, at most 254
    bytes) is the instance the closed examples run with. *)
Definition emailShape (s : string) : bool :=
  match splitAt "@"%char (list_ascii_of_string s) with
  | Some (l, d) =>
      negb (length l =? 0)%nat && forallb localPartByte l &&
      forallb domainByte d && existsb (Ascii.eqb "."%char) d &&
      negb (Ascii.eqb (hd "."%char d) "."%char) &&
      negb (Ascii.eqb (List.last d "."%char) "."%char) &&
      (String.length s <=? 254)%nat
  | None => false
  end.

(** ** Package [repositories]: the interfaces the service depends on

    An implementation has a state; a method returns the new state with its
    result.  A method that receives a pointer to an entity returns the
    entity as it left it.  A lookup returns either its error or the entity
    found. *)
Class UserRepository (R : Type) := {
  users_Create : R -> User -> R * User * option error;
  users_GetByID : R -> UserID -> R * (error + User);
  users_GetByEmail : R -> Email -> R * (error + User);
  users_GetByUsername : R -> Username -> R * (error + User);
  users_Update : R -> User -> R * User * option error;
  users_VerifyCredentials : R -> Email -> PasswordHash -> R * (error + User)
}.

Class SessionRepository (S : Type) := {
  sessions_Create : S -> UserSession -> S * UserSession * option error
}.

(** ** Package [services]: validator interface and requests *)

Class UserValidator (V : Type) := {
  ValidateUserCreate : V -> string -> string -> string -> string -> option error;
  ValidateUserUpdate : V -> User -> option error
}.

Record CreateUserRequest := mkCreateUserRequest {
  cr_Email : string;
  cr_Username : string;
  cr_PasswordHash : string;
  cr_FirstName : string;
  cr_LastName : string;
  cr_Status : string;
  cr_Role : string;
  cr_Tags : list string;
  cr_Metadata : GoMap
}.

(** The optional fields are pointers: [None] for [nil]. *)
Record UpdateUserRequest := mkUpdateUserRequest {
  up_UserID : UserID;
  up_FirstName : option string;
  up_LastName : option string;
  up_Metadata : option GoMap;
  up_Tags : option (list string);
  up_UpdatedBy : string
}.

(** ** What the domain takes from outside

    [isValidEmail] is called by [NewEmail] and defined in none of the
    package files at hand; [ToLower], [ParseRFC3339] and [ParseIP] stand for [strings.ToLower],
    [time.Parse(time.RFC3339, _)] and [net.ParseIP].  Every definition and
    theorem of the section holds for all of them. *)
Section Domain.

Context (isValidEmail : string -> bool).
Context (ToLower : string -> string).
Context (ParseRFC3339 : string -> Time * option string).
Context (ParseIP : string -> IP).

Definition NewEmail (email : string) : Email * option error :=
  if negb (isValidEmail email) then ("", Some ErrInvalidEmail)
  else (ToLower (TrimSpace email), None).

Definition SQLiteTimeConverter_DBToDomain (db : DBValue) : Time * option convError :=
  match db with
  | DBNil => (Time_zero, None)
  | DBTime t => (t, None)
  | DBString str =>
      let '(t, err) := ParseRFC3339 str in (t, option_map TimeFailure err)
  | _ => (Time_zero, Some (NewConversionError "expected time or string" db))
  end.

Definition DefaultEmailConverter_DomainToDB (domain : Email) : string := Email_String domain.

Definition DefaultEmailConverter_DBToDomain (db : string) : Email * option convError :=
  let '(e, err) := NewEmail db in (e, option_map DomainFailure err).

(** ** Package [services]: the service on its collaborators *)

Context {R S P V : Type}.
Context `{!UserRepository R, !SessionRepository S, !EventPublisher P, !UserValidator V}.

(** The clock and the entropy source: the [n]-th reading of [time.Now()]
    and the [n]-th result of [uuid.New()]. *)
Context (clockAt : nat -> Time) (entropyAt : nat -> UUID).

(** The state a service call runs in: the collaborators of [UserService],
    the number of clock readings and UUIDs taken so far, and the events
    handed to [eventPub.Publish] so far, oldest first. *)
Record World := mkWorld {
  userRepo : R;
  sessionRepo : S;
  eventPub : P;
  validator : V;
  ticks : nat;
  draws : nat;
  handed : list UserEvent
}.

(** A service computation: it runs on a world and ends with an error or a
    value.  What it did to the world before an error stays done. *)
Definition M (A : Type) : Type := World -> (error + A) * World.

#[global] Instance M_ret : MRet M := fun A (a : A) w => (inr a, w).

#[global] Instance M_bind : MBind M := fun A B (k : A -> M B) (m : M A) w =>
  match m w with
  | (inr a, w') => k a w'
  | (inl e, w') => (inl e, w')
  end.

Definition fail {A} (e : error) : M A := fun w => (inl e, w).

Definition timeNow : M Time := fun w =>
  (inr (clockAt (ticks w)),
   mkWorld (userRepo w) (sessionRepo w) (eventPub w) (validator w) (Datatypes.S (ticks w))
     (draws w) (handed w)).

Definition uuidNew : M UUID := fun w =>
  (inr (entropyAt (draws w)),
   mkWorld (userRepo w) (sessionRepo w) (eventPub w) (validator w) (ticks w)
     (Datatypes.S (draws w)) (handed w)).

(** A call on [s.userRepo]. *)
Definition onUsers {A} (f : R -> R * A) : M A := fun w =>
  let '(r, a) := f (userRepo w) in
  (inr a, mkWorld r (sessionRepo w) (eventPub w) (validator w) (ticks w) (draws w) (handed w)).

(** A call on [s.sessionRepo]. *)
Definition onSessions {A} (f : S -> S * A) : M A := fun w =>
  let '(s, a) := f (sessionRepo w) in
  (inr a, mkWorld (userRepo w) s (eventPub w) (validator w) (ticks w) (draws w) (handed w)).

(** [s.eventPub.Publish(event)]: the event is handed to the publisher and
    the publisher's error comes back. *)
Definition publish (event : UserEvent) : M (option error) := fun w =>
  let '(p, err) := Publish (eventPub w) event in
  (inr err,
   mkWorld (userRepo w) (sessionRepo w) p (validator w) (ticks w) (draws w)
     (handed w ++ [event])).

Definition withValidator {A} (f : V -> A) : M A := fun w => (inr (f (validator w)), w).

(** [if err != nil { return nil, fmt.Errorf("text: %w", err) }] *)
Definition check (text : string) (err : option error) : M unit :=
  match err with
  | Some e => fail (WrappedError text e)
  | None => mret tt
  end.

Definition checked {A} (text : string) (r : A * option error) : M A :=
  match r with
  | (_, Some e) => fail (WrappedError text e)
  | (a, None) => mret a
  end.

(** An event constructor of package [events] run on the world:
    [uuid.New()] is evaluated before [time.Now()]. *)
Definition newEvent (build : UUID -> Time -> UserEvent) : M UserEvent :=
  fresh ← uuidNew; now ← timeNow; mret (build fresh now).

(** [CreateUser].  The clock and the entropy source are read just before
    [NewUser] is entered; a warning printed for a publisher error is not
    part of the model. *)
Definition CreateUser (req : CreateUserRequest) : M User :=
  verr ← withValidator (fun v =>
    ValidateUserCreate v (cr_Email req) (cr_Username req) (cr_FirstName req) (cr_LastName req));
  _ ← check "validation failed" verr;
  byEmail ← onUsers (fun r => users_GetByEmail r (cr_Email req));
  match byEmail with
  | inr _ => fail ErrUserAlreadyExists
  | inl _ =>
      byName ← onUsers (fun r => users_GetByUsername r (cr_Username req));
      match byName with
      | inr _ => fail ErrUserAlreadyExists
      | inl _ =>
          email ← checked "invalid email" (NewEmail (cr_Email req));
          username ← checked "invalid username" (NewUsername (cr_Username req));
          first ← checked "invalid first name" (NewFirstName (cr_FirstName req));
          last ← checked "invalid last name" (NewLastName (cr_LastName req));
          passwordHash ← checked "invalid password hash" (NewPasswordHash (cr_PasswordHash req));
          now ← timeNow;
          fresh ← uuidNew;
          match NewUser fresh now email username passwordHash first last
                  (cr_Status req) (cr_Role req) NewUserMetadata (cr_Tags req) with
          | inr user =>
              '(user, cerr) ← onUsers (fun r =>
                 let '(r', u, e) := users_Create r user in (r', (u, e)));
              _ ← check "failed to save user" cerr;
              event ← newEvent (fun fresh now =>
                 UserCreated fresh now (UUID_String (uuid user)) (Email_String email)
                   (Username_String username) first last
                   (UserRole_String (role user)) (UserStatus_String (status user)));
              _ ← publish event;
              mret user
          | inl e => fail (WrappedError "failed to create user" e)
          end
      end
  end.

(** The copy [UpdateUser] makes of the request's metadata: [metadata.Set]
    of every entry of the request's map on a map just made ([range] over
    the [nil] map has no entries). *)
Definition copyMetadata (m : GoMap) : UserMetadata :=
  Some (map_fold (fun k v (acc : gmap string Any) => <[k := v]> acc) ∅ (default ∅ m)).

(** [user.UpdateProfile(...)] on the world's clock; its error is dropped
    by the caller. *)
Definition updateProfile (user : User) (firstName : option FirstName)
    (lastName : option LastName) (metadata : option UserMetadata)
    (tags : option (list string)) : M User :=
  now ← timeNow; mret (fst (User_UpdateProfile now user firstName lastName metadata tags)).

Definition UpdateUser (req : UpdateUserRequest) : M User :=
  found ← onUsers (fun r => users_GetByID r (up_UserID req));
  match found with
  | inl e => fail (WrappedError "user not found" e)
  | inr user =>
      let changes : gmap string Change := ∅ in
      '(user, changes) ←
        match up_FirstName req with
        | Some v =>
            newFirst ← checked "invalid first name" (NewFirstName v);
            let changes := <["first_name" :=
                  mkChange (NameValue (firstName user)) (NameValue newFirst)]> changes in
            user ← updateProfile user (Some newFirst) None None None;
            mret (user, changes)
        | None => mret (user, changes)
        end;
      '(user, changes) ←
        match up_LastName req with
        | Some v =>
            newLast ← checked "invalid last name" (NewLastName v);
            let changes := <["last_name" :=
                  mkChange (NameValue (lastName user)) (NameValue newLast)]> changes in
            user ← updateProfile user None (Some newLast) None None;
            mret (user, changes)
        | None => mret (user, changes)
        end;
      '(user, changes) ←
        match up_Metadata req with
        | Some m =>
            let copied := copyMetadata m in
            let changes := <["metadata" :=
                  mkChange (MetadataValue (metadata user)) (MetadataValue copied)]> changes in
            user ← updateProfile user None None (Some copied) None;
            mret (user, changes)
        | None => mret (user, changes)
        end;
      '(user, changes) ←
        match up_Tags req with
        | Some t =>
            let changes := <["tags" := mkChange (TagsValue (tags user)) (TagsValue t)]> changes in
            user ← updateProfile user None None None (Some t);
            mret (user, changes)
        | None => mret (user, changes)
        end;
      verr ← withValidator (fun v => ValidateUserUpdate v user);
      _ ← check "validation failed" verr;
      '(user, uerr) ← onUsers (fun r =>
         let '(r', u, e) := users_Update r user in (r', (u, e)));
      _ ← check "failed to update user" uerr;
      if (0 <? size changes)%nat then
        event ← newEvent (fun fresh now =>
           UserUpdated fresh now (UUID_String (uuid user)) changes (up_UpdatedBy req));
        _ ← publish event;
        mret user
      else mret user
  end.

(** [AuthenticateUser].  The error of [Publish] is dropped on the two
    failure paths and only logged on success. *)
Definition AuthenticateUser (email password ipAddress userAgent : string) : M UserSession :=
  match NewEmail email with
  | (_, Some _) => fail ErrInvalidCredentials
  | (emailEntity, None) =>
      verified ← onUsers (fun r => users_VerifyCredentials r emailEntity password);
      match verified with
      | inl _ =>
          event ← newEvent (fun fresh now =>
             UserLoginFailed fresh now "" ipAddress userAgent "unknown");
          _ ← publish event;
          fail ErrInvalidCredentials
      | inr user =>
          if negb (User_IsActive user) then
            event ← newEvent (fun fresh now =>
               UserLoginFailed fresh now (UUID_String (uuid user)) ipAddress userAgent
                 "inactive_account");
            _ ← publish event;
            if String.eqb (status user) UserStatusSuspended
            then fail ErrAccountSuspended
            else fail ErrAccountInactive
          else
            let deviceInfo := NewSessionDeviceInfo in
            let deviceInfo :=
              SessionDeviceInfo_SetMetadata deviceInfo "user_agent" (AnyString userAgent) in
            now ← timeNow;
            token ← uuidNew;
            let session := NewUserSession token now (id user) (ParseIP ipAddress) userAgent
                             deviceInfo SessionDurationMedium in
            '(session, serr) ← onSessions (fun s =>
               let '(s', x, e) := sessions_Create s session in (s', (x, e)));
            _ ← check "failed to create session" serr;
            now ← timeNow;
            let user := User_RecordLogin now user in
            '(user, _) ← onUsers (fun r =>
               let '(r', u, e) := users_Update r user in (r', (u, e)));
            event ← newEvent (fun fresh now =>
               UserLoggedIn fresh now (UUID_String (uuid user)) ipAddress userAgent "unknown");
            _ ← publish event;
            mret session
      end
  end.

(** [quiet m]: running [m] hands no event to the publisher and leaves the
    session repository alone, whatever the outcome. *)
Definition quiet {A} (m : M A) : Prop :=
  forall w, handed (snd (m w)) = handed w /\ sessionRepo (snd (m w)) = sessionRepo w.

End Domain.

(** ** Collaborators for the examples *)

(** [entities.User{}] *)
Definition zeroUser : User :=
  mkUser 0%Z UUID_Nil "" "" "" "" "" "" "" false None [] Time_zero Time_zero None.

(** The mock user repository of the integration tests: [Create] stores the
    user under the next identifier, only [GetByID] finds anything, and a
    credential check that succeeds returns [&entities.User{}]. *)
Record MockUserRepository := mkMockUsers {
  mock_users : gmap Z User;
  passwordVerifications : gmap string string;
  mock_idCounter : Z
}.

Definition NewMockUserRepository : MockUserRepository := mkMockUsers ∅ ∅ 1%Z.

Definition SetPasswordVerification (m : MockUserRepository) (email password : string)
    : MockUserRepository :=
  mkMockUsers (mock_users m) (<[email := password]> (passwordVerifications m)) (mock_idCounter m).

#[global] Instance MockUserRepository_UserRepository : UserRepository MockUserRepository := {|
  users_Create m user :=
    (mkMockUsers (<[mock_idCounter m := user]> (mock_users m)) (passwordVerifications m)
       (mock_idCounter m + 1)%Z, user, None);
  users_GetByID m id :=
    (m, match mock_users m !! id with Some u => inr u | None => inl ErrUserNotFound end);
  users_GetByEmail m _ := (m, inl ErrUserNotFound);
  users_GetByUsername m _ := (m, inl ErrUserNotFound);
  users_Update m user := (m, user, None);
  users_VerifyCredentials m email password :=
    (m, if String.eqb (default "" (passwordVerifications m !! email)) password
        then inr zeroUser else inl ErrInvalidCredentials)
|}.

(** A repository around one stored user, whom every lookup and credential
    check finds. *)
Record SingleUserRepository := mkSingleUser { stored : User }.

#[global] Instance SingleUserRepository_UserRepository : UserRepository SingleUserRepository := {|
  users_Create m user := (m, user, Some ErrUserAlreadyExists);
  users_GetByID m _ := (m, inr (stored m));
  users_GetByEmail m _ := (m, inr (stored m));
  users_GetByUsername m _ := (m, inr (stored m));
  users_Update m user := (mkSingleUser user, user, None);
  users_VerifyCredentials m _ _ := (m, inr (stored m))
|}.

Record MockSessionRepository := mkMockSessions {
  mock_sessions : gmap Z UserSession;
  mock_sessionCounter : Z
}.

Definition NewMockSessionRepository : MockSessionRepository := mkMockSessions ∅ 1%Z.

#[global] Instance MockSessionRepository_SessionRepository
    : SessionRepository MockSessionRepository := {|
  sessions_Create m session :=
    (mkMockSessions (<[mock_sessionCounter m := session]> (mock_sessions m))
       (mock_sessionCounter m + 1)%Z, session, None)
|}.

(** A validator that accepts every request. *)
Inductive AcceptingValidator := acceptingValidator.

#[global] Instance AcceptingValidator_UserValidator : UserValidator AcceptingValidator := {|
  ValidateUserCreate _ _ _ _ _ := None;
  ValidateUserUpdate _ _ := None
|}.

Definition sampleClock (n : nat) : Time := mkTime (1700000000 + Z.of_nat n)%Z None.

Definition sampleEntropy (n : nat) : UUID :=
  repeat (default x00 (Byte.of_N (N.of_nat n mod 256))) 16.

Definition sampleParseIP (s : string) : IP := [].

Definition sampleParseTime (s : string) : Time * option string :=
  (Time_zero, Some "cannot parse").

Definition sampleRequest : CreateUserRequest :=
  mkCreateUserRequest "Test@Example.com" "testuser" "hashed_password_of_at_least_32_bytes"
    "John" "Doe" "active" "user" ["developer"; "golang"] None.

Definition mockWorld : World :=
  mkWorld NewMockUserRepository NewMockSessionRepository NewInMemoryEventPublisher
    acceptingValidator 0 0 [].

Definition sampleUser (st : UserStatus) : User :=
  mkUser 7%Z (sampleEntropy 200) "test@example.com" "testuser"
    "hashed_password_of_at_least_32_bytes" "John" "Doe" st "user" false (Some ∅) []
    (sampleClock 0) (sampleClock 0) None.

Definition storedWorld (st : UserStatus) : World :=
  mkWorld (mkSingleUser (sampleUser st)) NewMockSessionRepository NewInMemoryEventPublisher
    acceptingValidator 0 0 [].

Definition sampleSession (expires : Z) (active : bool) : UserSession :=
  mkSession 1%Z 7%Z (sampleEntropy 1) NewSessionDeviceInfo [] "test-user-agent"
    (mkTime 0 None) (mkTime expires None) active.

(** A call of one of the mutator methods of [User], the method applied at
    a reading of the clock, and the condition under which the method
    changes the user: a valid target for the two enum setters, a tag not
    yet there for [AddTag], a tag that is there for [RemoveTag]. *)
Inductive Mutation :=
| CallChangeStatus (st : UserStatus)
| CallChangeRole (r : UserRole)
| CallUpdateProfile (f : option FirstName) (l : option LastName)
    (m : option UserMetadata) (t : option (list string))
| CallVerify
| CallRecordLogin
| CallAddTag (tag : string)
| CallRemoveTag (tag : string).

Definition mutate (now : Time) (u : User) (c : Mutation) : User :=
  match c with
  | CallChangeStatus st => fst (User_ChangeStatus now u st)
  | CallChangeRole r => fst (User_ChangeRole now u r)
  | CallUpdateProfile f l m t => fst (User_UpdateProfile now u f l m t)
  | CallVerify => User_Verify now u
  | CallRecordLogin => User_RecordLogin now u
  | CallAddTag tag => User_AddTag now u tag
  | CallRemoveTag tag => User_RemoveTag now u tag
  end.

Definition performs (u : User) (c : Mutation) : Prop :=
  match c with
  | CallChangeStatus st => st ∈ ["active"; "inactive"; "suspended"; "pending"]
  | CallChangeRole r => r ∈ ["user"; "admin"; "moderator"]
  | CallAddTag tag => tag ∉ tags u
  | CallRemoveTag tag => tag ∈ tags u
  | _ => True
  end.

#[global] Instance performs_dec (u : User) (c : Mutation) : Decision (performs u c).
Proof. destruct c; cbn [performs]; apply _. Defined.

(** ** More of the packages: definitions beyond the claims *)

(** [UserMetadata.Get] and [SessionDeviceInfo.GetMetadata]: [val, ok :=
    m[key]]; a missing key, and any key of the [nil] map, gives [(nil,
    false)]. *)
Definition GoMap_get (m : GoMap) (key : string) : Any * bool :=
  match m with
  | Some g =>
      match g !! key with
      | Some v => (v, true)
      | None => (AnyNil, false)
      end
  | None => (AnyNil, false)
  end.

Definition UserMetadata_Get (m : UserMetadata) (key : string) : Any * bool := GoMap_get m key.

Definition SessionDeviceInfo_GetMetadata (d : SessionDeviceInfo) (key : string) : Any * bool :=
  GoMap_get (Metadata d) key.

(** A run of mutator calls, each at its own reading of the clock. *)
Fixpoint mutateAll (u : User) (calls : list (Time * Mutation)) : User :=
  match calls with
  | [] => u
  | (now, c) :: rest => mutateAll (mutate now u c) rest
  end.

(** The readings of a run never go back, starting from [t]. *)
Fixpoint clockMonotone (t : Z) (calls : list (Time * Mutation)) : Prop :=
  match calls with
  | [] => True
  | (now, _) :: rest => (t <= instant now)%Z /\ clockMonotone (instant now) rest
  end.

(** *** Package [events]: the remaining event types *)

Definition EventUserDeleted : EventType := "user.deleted".
Definition EventUserActivated : EventType := "user.activated".
Definition EventUserDeactivated : EventType := "user.deactivated".
Definition EventUserSuspended : EventType := "user.suspended".
Definition EventUserLogout : EventType := "user.logout".
Definition EventUserVerificationRequested : EventType := "user.verification.requested".
Definition EventPasswordChanged : EventType := "password.changed".
Definition EventPasswordReset : EventType := "password.reset".
Definition EventPasswordResetRequested : EventType := "password.reset.requested".
Definition EventProfileUpdated : EventType := "profile.updated".

Definition validTypes : gmap string bool :=
  list_to_map
    [ (EventUserCreated, true); (EventUserUpdated, true); (EventUserDeleted, true);
      (EventUserActivated, true); (EventUserDeactivated, true); (EventUserSuspended, true);
      (EventUserLogin, true); (EventUserLogout, true); (EventUserLoginFail, true);
      (EventUserVerified, true); (EventUserVerificationRequested, true);
      (EventPasswordChanged, true); (EventPasswordReset, true);
      (EventPasswordResetRequested, true); (EventProfileUpdated, true);
      (EventRoleChanged, true) ].

(** [EventType.IsValid]: [validTypes[e]], [false] for a key that is not
    there. *)
Definition EventType_IsValid (e : EventType) : bool := default false (validTypes !! e).

(** [UserVerified] reads the clock twice: [stamped] for the payload, then
    [now] for the envelope. *)
Definition UserVerified (fresh : UUID) (stamped now : Time) (userID method : string) : UserEvent :=
  NewUserEvent fresh now EventUserVerified userID (UserVerifiedEvent userID method stamped).

(** The [UserID] field of the payload of an event. *)
Definition payloadUserID (e : UserEvent) : string :=
  match ev_Data e with
  | UserCreatedEvent u _ _ _ _ _ _ => u
  | UserUpdatedEvent u _ _ => u
  | UserLoginEvent u _ _ _ _ => u
  | UserVerifiedEvent u _ _ => u
  | RoleChangedEvent u _ _ _ => u
  end.

(** *** Package [converters]: the remaining converters, factories, helpers *)

Definition DefaultUsernameConverter_DomainToDB (domain : Username) : string :=
  Username_String domain.

Definition DefaultUsernameConverter_DBToDomain (db : string) : Username * option convError :=
  let '(u, err) := NewUsername db in (u, option_map DomainFailure err).

(** A [UUIDConverter] value: the two methods of the interface. *)
Record UUIDConverter := mkUUIDConverter {
  uuid_DomainToDB : UUID -> DBValue;
  uuid_DBToDomain : DBValue -> UUID * option convError
}.

Definition NewSQLiteUUIDConverter : UUIDConverter :=
  mkUUIDConverter SQLiteUUIDConverter_DomainToDB SQLiteUUIDConverter_DBToDomain.

Definition NewPostgresUUIDConverter : UUIDConverter :=
  mkUUIDConverter PostgresUUIDConverter_DomainToDB PostgresUUIDConverter_DBToDomain.

Definition NewMySQLUUIDConverter : UUIDConverter :=
  mkUUIDConverter MySQLUUIDConverter_DomainToDB MySQLUUIDConverter_DBToDomain.

Definition NewUUIDConverter (database : string) : UUIDConverter :=
  if String.eqb database "sqlite" then NewSQLiteUUIDConverter
  else if String.eqb database "postgres" then NewPostgresUUIDConverter
  else if String.eqb database "mysql" then NewMySQLUUIDConverter
  else NewSQLiteUUIDConverter.

Record BoolConverter := mkBoolConverter {
  bool_DomainToDB : bool -> DBValue;
  bool_DBToDomain : DBValue -> bool * option convError
}.

Definition NewSQLiteBoolConverter : BoolConverter :=
  mkBoolConverter SQLiteBoolConverter_DomainToDB SQLiteBoolConverter_DBToDomain.

Definition NewBoolConverter (database : string) : BoolConverter :=
  if String.eqb database "sqlite" || String.eqb database "postgres" || String.eqb database "mysql"
  then NewSQLiteBoolConverter
  else NewSQLiteBoolConverter.

(** [string(b)] for a byte slice [b]. *)
Definition string_of_bytes (b : list byte) : string :=
  string_of_list_ascii (map ascii_of_byte b).

Definition SafeString (value : DBValue) : string :=
  match value with
  | DBNil => ""
  | DBString v => v
  | DBBytes v => string_of_bytes v
  | _ => ""
  end.

Definition SafeTime (value : DBValue) : Time :=
  match value with
  | DBNil => Time_zero
  | DBTime t => t
  | _ => Time_zero
  end.

(** *** Package [mappers]: the helpers *)

Definition ParseUUID (uuidStr : string) : UUID * option uuidError :=
  if String.eqb uuidStr "" then (UUID_Nil, None) else UUID_Parse uuidStr.

Definition FormatUUID (u : UUID) : string :=
  if UUID_eqb u UUID_Nil then "" else UUID_String u.

Definition ParseBool (value : DBValue) : bool :=
  match value with
  | DBBool v => v
  | DBInt64 v => negb (v =? 0)%Z
  | DBInt v => negb (v =? 0)%Z
  | DBString v => String.eqb v "true" || String.eqb v "1"
  | DBNil => false
  | _ => false
  end.

Definition FormatBool (b : bool) : DBValue := DBBool b.

Definition ParseInterface (value : DBValue) : string :=
  match value with
  | DBNil => ""
  | DBString v => v
  | DBBytes v => string_of_bytes v
  | _ => ""
  end.

(** *** Packages [repositories] and [services]: the rest of the service *)

(** The two further methods of [SessionRepository] that the service calls. *)
Class SessionStore (S : Type) := {
  sessions_GetByToken : S -> SessionToken -> S * (error + UserSession);
  sessions_DeactivateByToken : S -> SessionToken -> S * option error
}.

Section Service.

Context {R S P V : Type}.
Context `{!UserRepository R, !SessionRepository S, !SessionStore S,
          !EventPublisher P, !UserValidator V}.
Context (clockAt : nat -> Time) (entropyAt : nat -> UUID).

#[local] Abbreviation Call := (@M R S P V).

Definition GetUser (userID : UserID) : Call User :=
  found ← onUsers (fun r => users_GetByID r userID);
  match found with
  | inl e => fail (WrappedError "failed to get user" e)
  | inr user => mret user
  end.

(** [session.IsExpired()] on the world's clock. *)
Definition isExpired (session : UserSession) : Call bool :=
  now ← timeNow clockAt; mret (UserSession_IsExpired now session).

(** [session.IsValid()] on the world's clock: [&&] does not read the
    clock for a session that is not active. *)
Definition isValid (session : UserSession) : Call bool :=
  if s_isActive session then expired ← isExpired session; mret (negb expired)
  else mret false.

Definition VerifySession (token : string) : Call (UserSession * User) :=
  match UUID_Parse token with
  | (_, Some _) => fail ErrInvalidSessionToken
  | (tokenUUID, None) =>
      found ← onSessions (fun s => sessions_GetByToken s tokenUUID);
      match found with
      | inl _ => fail ErrSessionNotFound
      | inr session =>
          valid ← isValid session;
          if negb (valid : bool) then
            expired ← isExpired session;
            if (expired : bool) then fail ErrSessionExpired else fail ErrSessionNotFound
          else
            owner ← onUsers (fun r => users_GetByID r (s_userID session));
            match owner with
            | inl e => fail (WrappedError "user not found" e)
            | inr user =>
                if negb (User_IsActive user) then fail ErrAccountInactive
                else mret (session, user)
            end
      end
  end.

Definition Logout (token : string) : Call unit :=
  match UUID_Parse token with
  | (_, Some _) => fail ErrInvalidSessionToken
  | (tokenUUID, None) =>
      err ← onSessions (fun s => sessions_DeactivateByToken s tokenUUID);
      check "failed to logout" err
  end.

(** [user.ChangeRole(newRole)] on the world's clock: the clock is read
    only for a valid role. *)
Definition changeRole (user : User) (newRole : UserRole) : Call (User * option error) :=
  if negb (UserRole_IsValid newRole) then mret (user, Some ErrInvalidUserRole)
  else now ← timeNow clockAt; mret (User_ChangeRole now user newRole).

Definition ChangeUserRole (userID : UserID) (newRole : UserRole) (changedBy : string)
    : Call User :=
  found ← onUsers (fun r => users_GetByID r userID);
  match found with
  | inl e => fail (WrappedError "user not found" e)
  | inr user =>
      let oldRole := role user in
      '(user, rerr) ← changeRole user newRole;
      _ ← check "invalid role" rerr;
      '(user, uerr) ← onUsers (fun r =>
         let '(r', u, e) := users_Update r user in (r', (u, e)));
      _ ← check "failed to change role" uerr;
      event ← newEvent clockAt entropyAt (fun fresh now =>
         RoleChanged fresh now (UUID_String (uuid user)) (UserRole_String oldRole)
           (UserRole_String newRole) changedBy);
      _ ← publish event;
      mret user
  end.

(** The readings of the clock never go back. *)
Definition monotoneClock : Prop :=
  forall m n : nat, (m <= n)%nat -> (instant (clockAt m) <= instant (clockAt n))%Z.

End Service.

(** The mock session repository finds no session and deactivates nothing. *)
#[global] Instance MockSessionRepository_SessionStore : SessionStore MockSessionRepository := {|
  sessions_GetByToken m _ := (m, inl ErrSessionNotFound);
  sessions_DeactivateByToken m _ := (m, None)
|}.

(** A session repository around one held session, found under every token. *)
Record SingleSessionRepository := mkSingleSession { held : UserSession }.

#[global] Instance SingleSessionRepository_SessionRepository
    : SessionRepository SingleSessionRepository := {|
  sessions_Create m session := (mkSingleSession session, session, None)
|}.

#[global] Instance SingleSessionRepository_SessionStore
    : SessionStore SingleSessionRepository := {|
  sessions_GetByToken m _ := (m, inr (held m));
  sessions_DeactivateByToken m _ := (mkSingleSession (UserSession_Deactivate (held m)), None)
|}.

(** A call on a session: [Deactivate], or [Extend] at a reading of the
    clock. *)
Inductive SessionCall :=
| CallDeactivate
| CallExtend (now : Time) (d : Duration).

Definition sessionCall (s : UserSession) (c : SessionCall) : UserSession :=
  match c with
  | CallDeactivate => UserSession_Deactivate s
  | CallExtend now d => UserSession_Extend now s d
  end.

Definition sessionCalls (s : UserSession) (calls : list SessionCall) : UserSession :=
  fold_left sessionCall calls s.

(** A user name of 51 bytes, three of them not white space. *)
Definition paddedName : string :=
  string_of_list_ascii (repeat " "%char 48) ++ "abc".

(** A request that sets none of the optional fields. *)
Definition emptyUpdate : UpdateUserRequest := mkUpdateUserRequest 7%Z None None None None "admin".

(** A request that sets the first name and the tags. *)
Definition nameUpdate : UpdateUserRequest :=
  mkUpdateUserRequest 7%Z (Some " Jane ") None None (Some ["vip"]) "admin".

(** A session token as a client sends it. *)
Definition sampleToken : string := "6ba7b810-9dad-11d1-80b4-00c04fd430c8".

(** A login with verified credentials of the stored user in a given
    account state. *)
Definition sampleLogin (st : UserStatus) :=
  AuthenticateUser emailShape ToLowerASCII sampleParseIP sampleClock sampleEntropy
    "test@example.com" "secret" "127.0.0.1" "test-user-agent" (storedWorld st).

(** The world of one stored user and one held session. *)
Definition sessionWorld (st : UserStatus) (expires : Z) (active : bool) : World :=
  mkWorld (mkSingleUser (sampleUser st)) (mkSingleSession (sampleSession expires active))
    NewInMemoryEventPublisher acceptingValidator 0 0 [].

(** * Properties *)

Lemma xtob_hexDigit (b : byte) :
  xtob (hexDigit (Byte.to_N b / 16)) (hexDigit (Byte.to_N b mod 16)) = (b, true).
Proof. destruct b; vm_compute; reflexivity. Qed.

Lemma UUID_wf_inv (u : UUID) :
  UUID_wf u ->
  exists b0 b1 b2 b3 b4 b5 b6 b7 b8 b9 b10 b11 b12 b13 b14 b15,
    u = [b0; b1; b2; b3; b4; b5; b6; b7; b8; b9; b10; b11; b12; b13; b14; b15].
Proof.
  unfold UUID_wf. intros H.
  do 16 (destruct u as [|? u]; [discriminate H|]).
  destruct u; [|discriminate H].
  repeat eexists.
Qed.

Lemma UUID_Parse_String (u : UUID) :
  UUID_wf u -> UUID_Parse (UUID_String u) = (u, None).
Proof.
  intros H. destruct (UUID_wf_inv u H) as
    (b0 & b1 & b2 & b3 & b4 & b5 & b6 & b7 & b8 & b9 & b10 & b11 & b12 & b13 & b14 & b15 & ->).
  unfold UUID_Parse, UUID_String, slice.
  rewrite list_ascii_of_string_of_list_ascii.
  cbn [firstn skipn Nat.sub hexEncode app length].
  unfold parseStandard, hyphenated, groupOffsets.
  cbn [decodeGroups]. unfold byteAt.
  cbn [nth Nat.add Ascii.eqb Bool.eqb andb].
  rewrite !xtob_hexDigit. reflexivity.
Qed.
Example UUID_Parse_ex :
  UUID_Parse "6ba7b810-9dad-11d1-80b4-00c04fd430c8" =
  ([x6b; xa7; xb8; x10; x9d; xad; x11; xd1; x80; xb4; x00; xc0; x4f; xd4; x30; xc8], None).
Proof. vm_compute. reflexivity. Qed.

Example UUID_String_ex :
  UUID_String [x6b; xa7; xb8; x10; x9d; xad; x11; xd1; x80; xb4; x00; xc0; x4f; xd4; x30; xc8]
  = "6ba7b810-9dad-11d1-80b4-00c04fd430c8".
Proof. vm_compute. reflexivity. Qed.

Example UUID_Parse_urn :
  UUID_Parse "URN:uuid:6BA7B810-9dad-11d1-80b4-00c04fd430c8" =
  ([x6b; xa7; xb8; x10; x9d; xad; x11; xd1; x80; xb4; x00; xc0; x4f; xd4; x30; xc8], None).
Proof. vm_compute. reflexivity. Qed.

Example UUID_Parse_bad :
  UUID_Parse "6ba7b810-9dad-11d1-80b4-00c04fd430cg" =
  ([x6b; xa7; xb8; x10; x9d; xad; x11; xd1; x80; xb4; x00; xc0; x4f; xd4; x30; x00],
   Some InvalidFormat).
Proof. vm_compute. reflexivity. Qed.

Example TrimSpace_ex :
  TrimSpace (bytes_of [32; 9; 194; 160; 97; 32; 98; 226; 128; 137; 13; 10]%N) = "a b".
Proof. vm_compute. reflexivity. Qed.

Example TrimSpace_keeps_stray_byte :
  TrimSpace (bytes_of [97; 128; 32]%N) = bytes_of [97; 128]%N.
Proof. vm_compute. reflexivity. Qed.

Example ToLowerASCII_ex : ToLowerASCII "Test@Example.COM" = "test@example.com".
Proof. vm_compute. reflexivity. Qed.

Example emailShape_ok : emailShape "test+alias@example.com" = true.
Proof. vm_compute. reflexivity. Qed.

Example emailShape_bad :
  map emailShape ["invalid-email"; "test@"; "@example.com"; "test@exa!mple.com"; ""]
  = [false; false; false; false; false].
Proof. vm_compute. reflexivity. Qed.

(** ** Sessions *)

(** What [IsValid] computes: the session is active and the clock is not
    after the expiry. *)
Lemma UserSession_IsValid_spec (now : Time) (s : UserSession) :
  UserSession_IsValid now s = true <->
  s_isActive s = true /\ (instant now <= instant (s_expiresAt s))%Z.
Proof.
  unfold UserSession_IsValid, UserSession_IsExpired, Time_After.
  rewrite andb_true_iff, negb_true_iff, Z.ltb_ge. reflexivity.
Qed.

(** A session made with duration [D] is invalid at every reading of the
    clock after its creation plus [D]. *)
Lemma UserSession_invalid_after_duration
    (fresh : UUID) (created now : Time) (userID : UserID) (ip : IP) (agent : string)
    (info : SessionDeviceInfo) (D : Duration) :
  (instant created + D < instant now)%Z ->
  UserSession_IsValid now (NewUserSession fresh created userID ip agent info D) = false.
Proof.
  intros H. unfold UserSession_IsValid, UserSession_IsExpired, Time_After, NewUserSession.
  cbn. apply Z.ltb_lt in H. rewrite H. reflexivity.
Qed.

(** C1, at the instant of expiry: an active session whose [expiresAt] is
    exactly the reading of the clock is reported valid by [IsValid], although
    the clock is not strictly before the expiry. *)
Theorem UserSession_IsValid_at_expiry :
  let s := sampleSession 1000 true in
  let now := mkTime 1000 None in
  UserSession_IsValid now s = true /\
  s_isActive s = true /\
  Time_Before now (s_expiresAt s) = false.
Proof. cbn. repeat split. Qed.

(** C10: [Deactivate] clears [isActive] and nothing else; [Extend] sets
    the expiry to the clock reading plus the duration and nothing else, and
    the new expiry is the same whatever session it is applied to, so nothing
    of the previous expiry is carried over; neither touches the token. *)
Theorem UserSession_Deactivate_Extend_frame (now : Time) (s : UserSession) (d : Duration) :
  let s1 := UserSession_Deactivate s in
  let s2 := UserSession_Extend now s d in
  (s_isActive s1 = false /\
   s_id s1 = s_id s /\ s_userID s1 = s_userID s /\ s_token s1 = s_token s /\
   s_deviceInfo s1 = s_deviceInfo s /\ s_ipAddress s1 = s_ipAddress s /\
   s_userAgent s1 = s_userAgent s /\ s_createdAt s1 = s_createdAt s /\
   s_expiresAt s1 = s_expiresAt s) /\
  (s_expiresAt s2 = Time_Add now d /\
   instant (s_expiresAt s2) = (instant now + d)%Z /\
   s_id s2 = s_id s /\ s_userID s2 = s_userID s /\ s_token s2 = s_token s /\
   s_deviceInfo s2 = s_deviceInfo s /\ s_ipAddress s2 = s_ipAddress s /\
   s_userAgent s2 = s_userAgent s /\ s_createdAt s2 = s_createdAt s /\
   s_isActive s2 = s_isActive s) /\
  (forall s' : UserSession,
     s_expiresAt (UserSession_Extend now s' d) = s_expiresAt s2).
Proof. cbn. repeat split. Qed.

(** ** Enum converters *)

Lemma UserStatus_IsValid_spec (s : string) :
  UserStatus_IsValid s = true <-> s ∈ ["active"; "inactive"; "suspended"; "pending"].
Proof.
  unfold UserStatus_IsValid, UserStatusActive, UserStatusInactive, UserStatusSuspended,
    UserStatusPending.
  rewrite !orb_true_iff, !String.eqb_eq, !elem_of_cons, elem_of_nil. tauto.
Qed.

Lemma UserRole_IsValid_spec (r : string) :
  UserRole_IsValid r = true <-> r ∈ ["user"; "admin"; "moderator"].
Proof.
  unfold UserRole_IsValid, UserRoleUser, UserRoleAdmin, UserRoleModerator.
  rewrite !orb_true_iff, !String.eqb_eq, !elem_of_cons, elem_of_nil. tauto.
Qed.

(** C2: outside the four statuses, and outside the three roles, [DBToDomain]
    returns a non-nil error, and the error is a [ConversionError] that
    carries the offending string.  The value returned beside the error is
    the constant [UserStatusActive], or [UserRoleUser]; it never comes
    without the error. *)
Theorem enum_DBToDomain_fails_closed (s : string) :
  (s ∉ ["active"; "inactive"; "suspended"; "pending"] ->
   DefaultUserStatusConverter_DBToDomain s =
     (UserStatusActive, Some (ConversionError "invalid user status" (DBString s)))) /\
  (s ∉ ["user"; "admin"; "moderator"] ->
   DefaultUserRoleConverter_DBToDomain s =
     (UserRoleUser, Some (ConversionError "invalid user role" (DBString s)))).
Proof.
  split; intros H.
  - unfold DefaultUserStatusConverter_DBToDomain.
    destruct (UserStatus_IsValid s) eqn:E; [|reflexivity].
    apply UserStatus_IsValid_spec in E. contradiction.
  - unfold DefaultUserRoleConverter_DBToDomain.
    destruct (UserRole_IsValid s) eqn:E; [|reflexivity].
    apply UserRole_IsValid_spec in E. contradiction.
Qed.

(** ** The in-memory publisher *)

Lemma InMemory_run_spec (calls : list PublisherCall) (p0 : InMemoryEventPublisher) :
  Forall (eq None) (snd (InMemory_run p0 calls)) /\
  length (snd (InMemory_run p0 calls)) = length calls /\
  InMemory_Events (fst (InMemory_run p0 calls)) =
    (InMemory_Events p0 ++ concat (map published calls))%list.
Proof.
  revert p0. induction calls as [|c cs IH]; intros p0; cbn.
  - rewrite app_nil_r. auto.
  - destruct (InMemory_call p0 c) as [p1 r] eqn:E1.
    destruct (InMemory_run p1 cs) as [p2 rs] eqn:E2.
    specialize (IH p1). rewrite E2 in IH. cbn in *. destruct IH as (F & L & Ev).
    assert (r = None /\ InMemory_Events p1 = (InMemory_Events p0 ++ published c)%list) as [-> Hp].
    { destruct c; cbn in E1; inversion E1; subst; auto. }
    repeat split; [constructor; auto | congruence |].
    rewrite Ev, Hp, app_assoc. reflexivity.
Qed.

(** [Clear] puts the publisher back in the state of a new one. *)
Lemma InMemory_Clear_new (p : InMemoryEventPublisher) :
  InMemory_Clear p = NewInMemoryEventPublisher.
Proof. reflexivity. Qed.

(** C9: [Publish] and [PublishBatch] of the in-memory publisher return
    [nil] on every event and in every state, and after any sequence of the
    two calls on a new publisher [Events()] is the events handed over, in
    the order they were handed over. *)
Theorem InMemory_publish_never_fails (calls : list PublisherCall) :
  (forall p e, snd (InMemory_Publish p e) = None) /\
  (forall p es, snd (InMemory_PublishBatch p es) = None) /\
  Forall (eq None) (snd (InMemory_run NewInMemoryEventPublisher calls)) /\
  length (snd (InMemory_run NewInMemoryEventPublisher calls)) = length calls /\
  InMemory_Events (fst (InMemory_run NewInMemoryEventPublisher calls)) =
    concat (map published calls).
Proof.
  split; [reflexivity|]. split; [reflexivity|].
  apply (InMemory_run_spec calls NewInMemoryEventPublisher).
Qed.

(** ** The mutators of [User] *)

Lemma indexOfTag_None (tag : string) (l : list string) :
  indexOfTag tag l = None <-> tag ∉ l.
Proof.
  induction l as [|x l IH]; cbn.
  - split; [intros _; apply not_elem_of_nil | reflexivity].
  - rewrite not_elem_of_cons. destruct (String.eqb x tag) eqn:E.
    + apply String.eqb_eq in E. split; [discriminate | intros [H _]; congruence].
    + apply String.eqb_neq in E. destruct (indexOfTag tag l); cbn.
      * split; [discriminate | intros [_ H]; apply IH in H; discriminate].
      * split; [intros _; split; [congruence | apply IH; reflexivity] | reflexivity].
Qed.

Lemma updatedAt_set_updatedAt (now : Time) (u : User) : updatedAt (set_updatedAt now u) = now.
Proof. reflexivity. Qed.

Lemma mutate_performs (now : Time) (u : User) (c : Mutation) :
  performs u c -> updatedAt (mutate now u c) = now.
Proof.
  destruct c; cbn [performs mutate]; intros H; try reflexivity.
  - apply UserStatus_IsValid_spec in H. unfold User_ChangeStatus. rewrite H. reflexivity.
  - apply UserRole_IsValid_spec in H. unfold User_ChangeRole. rewrite H. reflexivity.
  - apply indexOfTag_None in H. unfold User_AddTag. rewrite H. reflexivity.
  - unfold User_RemoveTag. destruct (indexOfTag tag (tags u)) eqn:E; [reflexivity|].
    apply indexOfTag_None in E. contradiction.
Qed.

Lemma mutate_idle (now : Time) (u : User) (c : Mutation) :
  ~ performs u c -> mutate now u c = u.
Proof.
  destruct c; cbn [performs mutate]; intros H; try (exfalso; apply H; exact I).
  - unfold User_ChangeStatus. destruct (UserStatus_IsValid st) eqn:E; [|reflexivity].
    apply UserStatus_IsValid_spec in E. contradiction.
  - unfold User_ChangeRole. destruct (UserRole_IsValid r) eqn:E; [|reflexivity].
    apply UserRole_IsValid_spec in E. contradiction.
  - unfold User_AddTag. destruct (indexOfTag tag (tags u)) eqn:E; [reflexivity|].
    apply indexOfTag_None in E. contradiction.
  - unfold User_RemoveTag. destruct (indexOfTag tag (tags u)) eqn:E; [|reflexivity].
    exfalso. apply H. destruct (decide (tag ∈ tags u)) as [|N]; [assumption|].
    apply indexOfTag_None in N. congruence.
Qed.

(** C8: a mutator that performs its mutation leaves [updatedAt] at the
    reading of the clock it was called at, so that with a clock that has not
    gone back since the last update [updatedAt] is never older afterwards;
    [ChangeStatus] and [ChangeRole] with a target outside the enum return
    [ErrInvalidUserStatus] and [ErrInvalidUserRole] with the user as it
    was. *)
Theorem User_mutators_bump_updatedAt (now : Time) (u : User) (c : Mutation) :
  (performs u c -> updatedAt (mutate now u c) = now) /\
  ((instant (updatedAt u) <= instant now)%Z ->
   (instant (updatedAt u) <= instant (updatedAt (mutate now u c)))%Z) /\
  (forall st, st ∉ ["active"; "inactive"; "suspended"; "pending"] ->
     User_ChangeStatus now u st = (u, Some ErrInvalidUserStatus)) /\
  (forall r, r ∉ ["user"; "admin"; "moderator"] ->
     User_ChangeRole now u r = (u, Some ErrInvalidUserRole)).
Proof.
  split; [apply mutate_performs|]. split.
  - intros Hclock. destruct (decide (performs u c)) as [H|H].
    + rewrite (mutate_performs now u c H). exact Hclock.
    + rewrite (mutate_idle now u c H). lia.
  - split; intros x H.
    + unfold User_ChangeStatus. destruct (UserStatus_IsValid x) eqn:E; [|reflexivity].
      apply UserStatus_IsValid_spec in E. contradiction.
    + unfold User_ChangeRole. destruct (UserRole_IsValid x) eqn:E; [|reflexivity].
      apply UserRole_IsValid_spec in E. contradiction.
Qed.

(** ** Value objects *)

(** C6, where it fails: [paddedName] is three bytes long after trimming,
    and [NewUsername] rejects it, because it measures the string before it
    trims. *)
Lemma NewUsername_rejects_padded :
  (3 <= String.length (TrimSpace paddedName) <= 50)%nat /\
  NewUsername paddedName = ("", Some ErrInvalidUsername).
Proof. vm_compute. repeat split; lia. Qed.

(** C6, as the code has it: a length outside [3,50] is a validation
    error; a string whose length is in [3,50] before and after trimming is
    accepted and returned trimmed. *)
Theorem NewUsername_length_check (s : string) :
  ((String.length s < 3 \/ 50 < String.length s)%nat ->
   exists err, NewUsername s = ("", Some err) /\ isValidationError err = true) /\
  ((3 <= String.length s <= 50)%nat ->
   (3 <= String.length (TrimSpace s) <= 50)%nat ->
   NewUsername s = (TrimSpace s, None)).
Proof.
  unfold NewUsername. split.
  - intros H. exists ErrInvalidUsername.
    destruct (String.length s <? 3)%nat eqn:E1; [split; reflexivity|].
    destruct (50 <? String.length s)%nat eqn:E2; [split; reflexivity|].
    apply Nat.ltb_ge in E1, E2. lia.
  - intros [H1 H2] _.
    destruct (String.length s <? 3)%nat eqn:E1; [apply Nat.ltb_lt in E1; lia|].
    destruct (50 <? String.length s)%nat eqn:E2; [apply Nat.ltb_lt in E2; lia|].
    reflexivity.
Qed.

Section Properties.

Context (isValidEmail : string -> bool).
Context (ToLower : string -> string).
Context (ParseRFC3339 : string -> Time * option string).
Context (ParseIP : string -> IP).

(** C5: a string that passes the shape check becomes an [Email] whose
    [String()] is the trimmed string in lower case; any other string is
    refused with a [ValidationError] on the field [email]. *)
Theorem NewEmail_normalises (e : string) :
  (isValidEmail e = true ->
   snd (NewEmail isValidEmail ToLower e) = None /\
   Email_String (fst (NewEmail isValidEmail ToLower e)) = ToLower (TrimSpace e)) /\
  (isValidEmail e = false ->
   exists err, snd (NewEmail isValidEmail ToLower e) = Some err /\
     isValidationError err = true /\ errorField err = Some "email").
Proof.
  unfold NewEmail. split; intros H; rewrite H; cbn.
  - split; reflexivity.
  - exists ErrInvalidEmail. repeat split.
Qed.

(** ** Round trips of the converters *)

Lemma UUID_eqb_spec (u v : UUID) : UUID_eqb u v = true <-> u = v.
Proof. unfold UUID_eqb. apply bool_decide_eq_true. Qed.

(** C3: [DBToDomain] after [DomainToDB] gives back the value, without an
    error, for every UUID through each of the three UUID converters and the
    session token converter, for every time (the same instant; the same
    value whenever it is not the zero instant), for every boolean, and for
    every status and role of the enums. *)
Theorem converters_round_trip :
  (forall u : UUID, UUID_wf u ->
     SQLiteUUIDConverter_DBToDomain (SQLiteUUIDConverter_DomainToDB u) = (u, None)) /\
  (forall u : UUID, UUID_wf u ->
     PostgresUUIDConverter_DBToDomain (PostgresUUIDConverter_DomainToDB u) = (u, None)) /\
  (forall u : UUID, UUID_wf u ->
     MySQLUUIDConverter_DBToDomain (MySQLUUIDConverter_DomainToDB u) = (u, None)) /\
  (forall u : SessionToken, UUID_wf u ->
     DefaultSessionTokenConverter_DBToDomain (DefaultSessionTokenConverter_DomainToDB u)
       = (u, None)) /\
  (forall t : Time,
     let r := SQLiteTimeConverter_DBToDomain ParseRFC3339 (SQLiteTimeConverter_DomainToDB t) in
     snd r = None /\ Time_Equal (fst r) t = true /\
     (Time_IsZero t = false \/ t = Time_zero -> fst r = t)) /\
  (forall b : bool,
     SQLiteBoolConverter_DBToDomain (SQLiteBoolConverter_DomainToDB b) = (b, None)) /\
  (forall s : UserStatus, s ∈ ["active"; "inactive"; "suspended"; "pending"] ->
     DefaultUserStatusConverter_DBToDomain (DefaultUserStatusConverter_DomainToDB s) = (s, None)) /\
  (forall r : UserRole, r ∈ ["user"; "admin"; "moderator"] ->
     DefaultUserRoleConverter_DBToDomain (DefaultUserRoleConverter_DomainToDB r) = (r, None)).
Proof.
  repeat split.
  - intros u H. unfold SQLiteUUIDConverter_DomainToDB.
    destruct (UUID_eqb u UUID_Nil) eqn:E.
    + apply UUID_eqb_spec in E. subst. reflexivity.
    + unfold SQLiteUUIDConverter_DBToDomain. rewrite (UUID_Parse_String u H). reflexivity.
  - intros u H. unfold MySQLUUIDConverter_DomainToDB, MySQLUUIDConverter_DBToDomain,
      UUID_FromBytes. rewrite H. reflexivity.
  - intros u H. unfold DefaultSessionTokenConverter_DomainToDB,
      DefaultSessionTokenConverter_DBToDomain. rewrite (UUID_Parse_String u H). reflexivity.
  - unfold SQLiteTimeConverter_DomainToDB. destruct (Time_IsZero t); reflexivity.
  - unfold SQLiteTimeConverter_DomainToDB. destruct (Time_IsZero t) eqn:E; cbn.
    + unfold Time_IsZero in E. unfold Time_Equal. cbn.
      apply Z.eqb_eq in E. rewrite E. reflexivity.
    + unfold Time_Equal. apply Z.eqb_refl.
  - unfold SQLiteTimeConverter_DomainToDB. intros [H| ->].
    + rewrite H. reflexivity.
    + reflexivity.
  - intros s H. apply UserStatus_IsValid_spec in H.
    unfold DefaultUserStatusConverter_DBToDomain, DefaultUserStatusConverter_DomainToDB,
      UserStatus_String. rewrite H. reflexivity.
  - intros r H. apply UserRole_IsValid_spec in H.
    unfold DefaultUserRoleConverter_DBToDomain, DefaultUserRoleConverter_DomainToDB,
      UserRole_String. rewrite H. reflexivity.
Qed.

(** ** The user service *)

Context {R S P V : Type}.
Context `{!UserRepository R, !SessionRepository S, !EventPublisher P, !UserValidator V}.
Context (clockAt : nat -> Time) (entropyAt : nat -> UUID).

#[local] Abbreviation M := (@M R S P V).
#[local] Abbreviation World := (@World R S P V).
#[local] Abbreviation create :=
  (CreateUser isValidEmail ToLower clockAt entropyAt : CreateUserRequest -> M User).
#[local] Abbreviation update :=
  (UpdateUser clockAt entropyAt : UpdateUserRequest -> M User).
#[local] Abbreviation authenticate :=
  (AuthenticateUser isValidEmail ToLower ParseIP clockAt entropyAt
     : string -> string -> string -> string -> M UserSession).
#[local] Abbreviation readClock := (@timeNow R S P V clockAt).
#[local] Abbreviation drawUUID := (@uuidNew R S P V entropyAt).
#[local] Abbreviation makeEvent := (@newEvent R S P V clockAt entropyAt).
#[local] Abbreviation applyProfile := (@updateProfile R S P V clockAt).

Lemma quiet_ret {A} (a : A) : quiet (mret a : M A).
Proof. intros w. split; reflexivity. Qed.

Lemma quiet_fail {A} (e : error) : quiet (fail e : M A).
Proof. intros w. split; reflexivity. Qed.

Lemma quiet_bind {A B} (m : M A) (k : A -> M B) :
  quiet m -> (forall a, quiet (k a)) -> quiet (m ≫= k).
Proof.
  intros Hm Hk w. unfold mbind, M_bind. specialize (Hm w).
  destruct (m w) as [[e|a] w1]; cbn in *; [exact Hm|].
  destruct (Hk a w1) as [H1 H2]. destruct Hm as [H3 H4]. split; congruence.
Qed.

Lemma quiet_timeNow : quiet readClock.
Proof. intros w. split; reflexivity. Qed.

Lemma quiet_uuidNew : quiet drawUUID.
Proof. intros w. split; reflexivity. Qed.

Lemma quiet_onUsers {A} (f : R -> R * A) : quiet (onUsers f : M A).
Proof. intros w. unfold onUsers. destruct (f (userRepo w)). split; reflexivity. Qed.

Lemma quiet_withValidator {A} (f : V -> A) : quiet (withValidator f : M A).
Proof. intros w. split; reflexivity. Qed.

Lemma quiet_check (text : string) (err : option error) : quiet (check text err : M unit).
Proof. destruct err; [apply quiet_fail | apply quiet_ret]. Qed.

Lemma quiet_checked {A} (text : string) (r : A * option error) : quiet (checked text r : M A).
Proof. destruct r as [a [e|]]; [apply quiet_fail | apply quiet_ret]. Qed.

Lemma quiet_newEvent (build : UUID -> Time -> UserEvent) :
  quiet (makeEvent build).
Proof.
  unfold newEvent. apply quiet_bind; [apply quiet_uuidNew|]. intros u.
  apply quiet_bind; [apply quiet_timeNow|]. intros t. apply quiet_ret.
Qed.

Lemma quiet_updateProfile (user : User) f l m t :
  quiet (applyProfile user f l m t).
Proof.
  unfold updateProfile. apply quiet_bind; [apply quiet_timeNow|]. intros n. apply quiet_ret.
Qed.

Lemma bind_ret_l {A B} (a : A) (k : A -> M B) : (mret a ≫= k) = k a.
Proof. reflexivity. Qed.

Lemma bind_inr {A B} (m : M A) (k : A -> M B) (w w' : World) (b : B) :
  (m ≫= k) w = (inr b, w') ->
  exists a w1, m w = (inr a, w1) /\ k a w1 = (inr b, w').
Proof.
  unfold mbind, M_bind. destruct (m w) as [[e|a] w1]; [discriminate|].
  intros H. exists a, w1. split; [reflexivity | exact H].
Qed.

Lemma quiet_handed {A} (m : M A) (w w' : World) (r : error + A) :
  quiet m -> m w = (r, w') -> handed w' = handed w.
Proof. intros Q H. destruct (Q w) as [Hh _]. rewrite H in Hh. exact Hh. Qed.

Lemma UpdateUser_without_fields_quiet (req : UpdateUserRequest) :
  up_FirstName req = None -> up_LastName req = None ->
  up_Metadata req = None -> up_Tags req = None ->
  quiet (update req).
Proof.
  intros H1 H2 H3 H4. unfold UpdateUser. rewrite H1, H2, H3, H4.
  apply quiet_bind; [apply quiet_onUsers|]. intros [e|user]; [apply quiet_fail|].
  repeat (rewrite bind_ret_l; cbn beta iota).
  apply quiet_bind; [apply quiet_withValidator|]. intros verr.
  apply quiet_bind; [apply quiet_check|]. intros [].
  apply quiet_bind; [apply quiet_onUsers|]. intros [user' uerr].
  apply quiet_bind; [apply quiet_check|]. intros [].
  rewrite map_size_empty. cbn [Nat.ltb Nat.leb]. apply quiet_ret.
Qed.

Lemma CreateUser_emits (req : CreateUserRequest) (w w' : World) (user : User) :
  create req w = (inr user, w') ->
  exists e, handed w' = (handed w ++ [e])%list /\
    ev_Type e = EventUserCreated /\ ev_UserID e = UUID_String (uuid user).
Proof.
  intros H. unfold CreateUser in H.
  apply bind_inr in H as (verr & w1 & Q1 & H).
  apply (quiet_handed _ _ _ _ (quiet_withValidator _)) in Q1.
  apply bind_inr in H as ([] & w2 & Q2 & H).
  apply (quiet_handed _ _ _ _ (quiet_check _ _)) in Q2.
  apply bind_inr in H as (byEmail & w3 & Q3 & H).
  apply (quiet_handed _ _ _ _ (quiet_onUsers _)) in Q3.
  destruct byEmail as [_e|]; [|discriminate H].
  apply bind_inr in H as (byName & w4 & Q4 & H).
  apply (quiet_handed _ _ _ _ (quiet_onUsers _)) in Q4.
  destruct byName as [_e'|]; [|discriminate H].
  apply bind_inr in H as (email & w5 & Q5 & H).
  apply (quiet_handed _ _ _ _ (quiet_checked _ _)) in Q5.
  apply bind_inr in H as (username & w6 & Q6 & H).
  apply (quiet_handed _ _ _ _ (quiet_checked _ _)) in Q6.
  apply bind_inr in H as (first & w7 & Q7 & H).
  apply (quiet_handed _ _ _ _ (quiet_checked _ _)) in Q7.
  apply bind_inr in H as (last & w8 & Q8 & H).
  apply (quiet_handed _ _ _ _ (quiet_checked _ _)) in Q8.
  apply bind_inr in H as (hash & w9 & Q9 & H).
  apply (quiet_handed _ _ _ _ (quiet_checked _ _)) in Q9.
  apply bind_inr in H as (now & w10 & Q10 & H).
  apply (quiet_handed _ _ _ _ quiet_timeNow) in Q10.
  apply bind_inr in H as (fresh & w11 & Q11 & H).
  apply (quiet_handed _ _ _ _ quiet_uuidNew) in Q11.
  destruct (NewUser _ _ _ _ _ _ _ _ _ _ _) as [ne|made]; [discriminate H|].
  apply bind_inr in H as ([saved cerr] & w12 & Q12 & H).
  apply (quiet_handed _ _ _ _ (quiet_onUsers _)) in Q12.
  apply bind_inr in H as ([] & w13 & Q13 & H).
  apply (quiet_handed _ _ _ _ (quiet_check _ _)) in Q13.
  apply bind_inr in H as (event & w14 & Q14 & H).
  pose proof (quiet_handed _ _ _ _ (quiet_newEvent _) Q14) as Q14'.
  apply bind_inr in H as (perr & w15 & Q15 & H).
  unfold mret, M_ret in H. injection H as <- <-.
  unfold publish in Q15. destruct (Publish (eventPub w14) event) as [p' err'].
  injection Q15 as _ <-. cbn [handed].
  exists event. split; [congruence|].
  unfold newEvent in Q14.
  apply bind_inr in Q14 as (u0 & wa & _ & Q14).
  apply bind_inr in Q14 as (t0 & wb & _ & Q14).
  unfold mret, M_ret in Q14. injection Q14 as <- _. split; reflexivity.
Qed.



End Properties.

(** * The theorems at concrete inputs *)

(** A status and a role that the schema never had. *)
Lemma enum_DBToDomain_fails_closed_witness :
  DefaultUserStatusConverter_DBToDomain "deleted" =
    ("active", Some (ConversionError "invalid user status" (DBString "deleted"))) /\
  DefaultUserRoleConverter_DBToDomain "deleted" =
    ("user", Some (ConversionError "invalid user role" (DBString "deleted"))).
Proof.
  destruct (enum_DBToDomain_fails_closed "deleted") as [H1 H2].
  split; [apply H1 | apply H2]; apply (bool_decide_unpack _); vm_compute; exact I.
Defined.

(** One UUID through the string and the byte layout, one status, one role. *)
Lemma converters_round_trip_witness :
  SQLiteUUIDConverter_DBToDomain (SQLiteUUIDConverter_DomainToDB (sampleEntropy 7))
    = (sampleEntropy 7, None) /\
  MySQLUUIDConverter_DBToDomain (MySQLUUIDConverter_DomainToDB (sampleEntropy 7))
    = (sampleEntropy 7, None) /\
  DefaultUserStatusConverter_DBToDomain (DefaultUserStatusConverter_DomainToDB "suspended")
    = ("suspended", None) /\
  DefaultUserRoleConverter_DBToDomain (DefaultUserRoleConverter_DomainToDB "moderator")
    = ("moderator", None).
Proof.
  destruct (converters_round_trip sampleParseTime) as (H1 & _ & H3 & _ & _ & _ & H6 & H7).
  split; [apply H1; reflexivity|].
  split; [apply H3; reflexivity|].
  split; [apply H6 | apply H7]; apply (bool_decide_unpack _); vm_compute; exact I.
Defined.

(** One address that is normalised and one string that is refused. *)
Lemma NewEmail_normalises_witness :
  Email_String (fst (NewEmail emailShape ToLowerASCII "Test+Alias@Example.COM"))
    = "test+alias@example.com" /\
  exists err, snd (NewEmail emailShape ToLowerASCII "invalid-email") = Some err /\
    isValidationError err = true /\ errorField err = Some "email".
Proof.
  split.
  - destruct (NewEmail_normalises emailShape ToLowerASCII "Test+Alias@Example.COM") as [H _].
    destruct (H eq_refl) as [_ ->]. vm_compute. reflexivity.
  - destruct (NewEmail_normalises emailShape ToLowerASCII "invalid-email") as [_ H].
    apply H. vm_compute. reflexivity.
Defined.

(** A name that is too short, and a name with a space on either side. *)
Lemma NewUsername_length_check_witness :
  (exists err, NewUsername "ab" = ("", Some err) /\ isValidationError err = true) /\
  NewUsername " testuser " = ("testuser", None).
Proof.
  split.
  - destruct (NewUsername_length_check "ab") as [H _]. apply H. left. cbn. lia.
  - destruct (NewUsername_length_check " testuser ") as [_ H].
    rewrite H; [vm_compute; reflexivity | cbn; lia | vm_compute; lia].
Defined.

(** A new tag on a user without tags, five ticks after the user was made. *)
Lemma User_mutators_bump_updatedAt_witness :
  updatedAt (mutate (sampleClock 5) (sampleUser "active") (CallAddTag "vip")) = sampleClock 5 /\
  (instant (updatedAt (sampleUser "active")) <=
   instant (updatedAt (mutate (sampleClock 5) (sampleUser "active") (CallAddTag "vip"))))%Z /\
  User_ChangeStatus (sampleClock 5) (sampleUser "active") "deleted"
    = (sampleUser "active", Some ErrInvalidUserStatus) /\
  User_ChangeRole (sampleClock 5) (sampleUser "active") "root"
    = (sampleUser "active", Some ErrInvalidUserRole).
Proof.
  destruct (User_mutators_bump_updatedAt (sampleClock 5) (sampleUser "active") (CallAddTag "vip"))
    as (H1 & H2 & H3 & H4).
  split; [apply H1; apply not_elem_of_nil|].
  split; [apply H2; cbn; lia|].
  split; [apply H3 | apply H4]; apply (bool_decide_unpack _); vm_compute; exact I.
Defined.




(** * Beyond the claims *)

(** ** Strings: append, reversal, trimming *)

Lemma append_cons (a : ascii) (s t : string) : (String a s ++ t) = String a (s ++ t).
Proof. reflexivity. Qed.

Lemma append_nil_l (t : string) : ("" ++ t) = t.
Proof. reflexivity. Qed.

Lemma append_nil_r (s : string) : (s ++ "") = s.
Proof. induction s as [|a s IH]; [reflexivity|]. rewrite append_cons, IH. reflexivity. Qed.

Lemma append_assoc (s t u : string) : ((s ++ t) ++ u) = (s ++ (t ++ u)).
Proof.
  induction s as [|a s IH]; [reflexivity|]. rewrite !append_cons, IH. reflexivity.
Qed.

Lemma length_append (s t : string) :
  String.length (s ++ t) = (String.length s + String.length t)%nat.
Proof.
  induction s as [|a s IH]; [reflexivity|]. rewrite append_cons. cbn. rewrite IH. reflexivity.
Qed.

Lemma rev_app_append (s t u : string) :
  String.rev_app s (t ++ u) = (String.rev_app s t ++ u).
Proof.
  revert t. induction s as [|a s IH]; intros t; [reflexivity|].
  cbn. rewrite <- append_cons. apply IH.
Qed.

Lemma rev_app_rev (s t : string) : String.rev_app s t = (String.rev s ++ t).
Proof. unfold String.rev. rewrite <- rev_app_append. reflexivity. Qed.

Lemma rev_app_app_l (s1 s2 t : string) :
  String.rev_app (s1 ++ s2) t = String.rev_app s2 (String.rev_app s1 t).
Proof.
  revert t. induction s1 as [|a s1 IH]; intros t; [reflexivity|].
  rewrite append_cons. cbn. apply IH.
Qed.

Lemma rev_append (s t : string) : String.rev (s ++ t) = (String.rev t ++ String.rev s).
Proof.
  unfold String.rev at 1. rewrite rev_app_app_l. apply rev_app_rev.
Qed.

Lemma rev_app_rev_app (s t u : string) :
  String.rev_app (String.rev_app s t) u = String.rev_app t (s ++ u).
Proof.
  revert t. induction s as [|a s IH]; intros t; [reflexivity|].
  cbn. rewrite IH. reflexivity.
Qed.

Lemma rev_involutive (s : string) : String.rev (String.rev s) = s.
Proof. unfold String.rev. rewrite rev_app_rev_app. cbn. apply append_nil_r. Qed.

Lemma length_rev_app (s t : string) :
  String.length (String.rev_app s t) = (String.length s + String.length t)%nat.
Proof.
  revert t. induction s as [|a s IH]; intros t; [reflexivity|].
  cbn. rewrite IH. cbn. lia.
Qed.

Lemma length_rev (s : string) : String.length (String.rev s) = String.length s.
Proof. unfold String.rev. rewrite length_rev_app. cbn. lia. Qed.

Lemma stripPrefix_spec (p s r : string) : stripPrefix p s = Some r <-> s = (p ++ r).
Proof.
  revert s. induction p as [|a p IH]; intros s.
  - cbn. rewrite append_nil_l. split; [intros [= ->]; reflexivity | intros ->; reflexivity].
  - destruct s as [|b s]; cbn.
    + split; [discriminate | rewrite append_cons; discriminate].
    + rewrite append_cons. destruct (Ascii.eqb a b) eqn:E.
      * apply Ascii.eqb_eq in E. subst b. rewrite IH.
        split; [intros ->; reflexivity | intros [= ->]; reflexivity].
      * apply Ascii.eqb_neq in E. split; [discriminate | intros [= -> _]; contradiction].
Qed.

Lemma stripOneOf_Some (runes : list string) (s r : string) :
  stripOneOf runes s = Some r -> exists p, In p runes /\ s = (p ++ r).
Proof.
  induction runes as [|q runes IH]; cbn; [discriminate|].
  destruct (stripPrefix q s) as [rest|] eqn:E.
  - intros [= ->]. exists q. split; [left; reflexivity | apply stripPrefix_spec; exact E].
  - intros H. destruct (IH H) as (p & Hp & ->). exists p. split; [right; exact Hp | reflexivity].
Qed.

Lemma stripOneOf_None (runes : list string) (s : string) :
  stripOneOf runes s = None -> forall p r, In p runes -> s <> (p ++ r).
Proof.
  induction runes as [|q runes IH]; cbn; [intros _ p r []|].
  destruct (stripPrefix q s) as [rest|] eqn:E; [discriminate|].
  intros H p r [->|Hp] Hs.
  - apply stripPrefix_spec in Hs. congruence.
  - exact (IH H p r Hp Hs).
Qed.

Lemma stripOneOf_None_prefix (runes : list string) (s t : string) :
  stripOneOf runes (s ++ t) = None -> stripOneOf runes s = None.
Proof.
  intros H. destruct (stripOneOf runes s) as [r|] eqn:E; [|reflexivity].
  destruct (stripOneOf_Some _ _ _ E) as (p & Hp & ->).
  exfalso. apply (stripOneOf_None _ _ H p (r ++ t) Hp). apply append_assoc.
Qed.

Lemma trimLeftRunes_suffix (fuel : nat) (runes : list string) (s : string) :
  exists p, s = (p ++ trimLeftRunes fuel runes s).
Proof.
  revert s. induction fuel as [|fuel IH]; intros s; cbn.
  - exists "". reflexivity.
  - destruct (stripOneOf runes s) as [rest|] eqn:E; [|exists ""; reflexivity].
    destruct (stripOneOf_Some _ _ _ E) as (q & _ & ->).
    destruct (IH rest) as (p & Hp). exists (q ++ p).
    rewrite append_assoc, <- Hp. reflexivity.
Qed.

Lemma trimLeftRunes_done (fuel : nat) (runes : list string) (s : string) :
  (forall p, In p runes -> p <> "") ->
  (String.length s <= fuel)%nat ->
  stripOneOf runes (trimLeftRunes fuel runes s) = None.
Proof.
  intros Hne. revert s. induction fuel as [|fuel IH]; intros s Hlen; cbn.
  - destruct s; [|cbn in Hlen; lia].
    destruct (stripOneOf runes "") as [r|] eqn:E; [|reflexivity].
    destruct (stripOneOf_Some _ _ _ E) as (p & Hp & Hs).
    destruct p; [exfalso; exact (Hne _ Hp eq_refl) | discriminate Hs].
  - destruct (stripOneOf runes s) as [rest|] eqn:E; [|exact E].
    apply IH. destruct (stripOneOf_Some _ _ _ E) as (p & Hp & ->).
    rewrite length_append in Hlen. pose proof (Hne p Hp) as Hn.
    destruct p; [contradiction | cbn in Hlen; lia].
Qed.

Lemma trimLeftRunes_id (fuel : nat) (runes : list string) (s : string) :
  stripOneOf runes s = None -> trimLeftRunes fuel runes s = s.
Proof. intros H. destruct fuel; cbn; [reflexivity | rewrite H; reflexivity]. Qed.

Lemma spaceRunes_nonempty (p : string) : In p spaceRunes -> p <> "".
Proof.
  intros H. vm_compute in H.
  repeat (destruct H as [<-|H]; [discriminate|]). contradiction.
Qed.

Lemma revSpaceRunes_nonempty (p : string) : In p (map String.rev spaceRunes) -> p <> "".
Proof.
  intros H. vm_compute in H.
  repeat (destruct H as [<-|H]; [discriminate|]). contradiction.
Qed.

Lemma TrimLeftSpace_done (s : string) : stripOneOf spaceRunes (TrimLeftSpace s) = None.
Proof. apply trimLeftRunes_done; [apply spaceRunes_nonempty | lia]. Qed.

Lemma TrimLeftSpace_suffix (s : string) : exists p, s = (p ++ TrimLeftSpace s).
Proof. apply trimLeftRunes_suffix. Qed.

Lemma TrimRightSpace_prefix (s : string) : exists x, s = (TrimRightSpace s ++ x).
Proof.
  unfold TrimRightSpace.
  destruct (trimLeftRunes_suffix (String.length s) (map String.rev spaceRunes) (String.rev s))
    as (p & Hp).
  exists (String.rev p). rewrite <- rev_append, <- Hp. symmetry. apply rev_involutive.
Qed.

Lemma TrimRightSpace_done (s : string) :
  stripOneOf (map String.rev spaceRunes) (String.rev (TrimRightSpace s)) = None.
Proof.
  unfold TrimRightSpace. rewrite rev_involutive.
  apply trimLeftRunes_done; [apply revSpaceRunes_nonempty | rewrite length_rev; lia].
Qed.

Lemma TrimSpace_length (s : string) : (String.length (TrimSpace s) <= String.length s)%nat.
Proof.
  unfold TrimSpace. destruct (TrimLeftSpace_suffix s) as (p & Hp).
  destruct (TrimRightSpace_prefix (TrimLeftSpace s)) as (x & Hx).
  rewrite Hp at 2. rewrite Hx at 2. rewrite !length_append. lia.
Qed.

Lemma TrimSpace_idempotent (s : string) : TrimSpace (TrimSpace s) = TrimSpace s.
Proof.
  unfold TrimSpace. set (t := TrimLeftSpace s). set (u := TrimRightSpace t).
  assert (Hl : TrimLeftSpace u = u).
  { apply trimLeftRunes_id. destruct (TrimRightSpace_prefix t) as (x & Hx). fold u in Hx.
    apply (stripOneOf_None_prefix _ u x). rewrite <- Hx. apply TrimLeftSpace_done. }
  rewrite Hl. unfold TrimRightSpace at 1.
  rewrite trimLeftRunes_id; [apply rev_involutive | apply TrimRightSpace_done].
Qed.

(** ** Value objects *)

Lemma NewName_spec (s : string) :
  (TrimSpace s = "" -> (String.length (TrimSpace s) =? 0)%nat = true) /\
  (TrimSpace s <> "" -> (String.length (TrimSpace s) =? 0)%nat = false).
Proof.
  split; intros H.
  - rewrite H. reflexivity.
  - destruct (TrimSpace s); [contradiction | reflexivity].
Qed.

(** X1: a first or last name that is accepted is the trimmed input, is not
    empty, is no longer than the input, has no white space left to trim, and
    is accepted unchanged when it is validated again; an input that trims to
    nothing is refused with the error of its field. *)
Theorem NewName_normal_form (s : string) :
  (forall n, NewFirstName s = (n, None) ->
     n = TrimSpace s /\ n <> "" /\ (String.length n <= String.length s)%nat /\
     TrimSpace n = n /\ NewFirstName n = (n, None)) /\
  (forall n, NewLastName s = (n, None) ->
     n = TrimSpace s /\ n <> "" /\ (String.length n <= String.length s)%nat /\
     TrimSpace n = n /\ NewLastName n = (n, None)) /\
  (TrimSpace s = "" ->
     NewFirstName s = ("", Some ErrInvalidFirstName) /\
     NewLastName s = ("", Some ErrInvalidLastName)).
Proof.
  assert (G : forall n, TrimSpace s <> "" -> n = TrimSpace s ->
            n <> "" /\ (String.length n <= String.length s)%nat /\ TrimSpace n = n /\
            (String.length (TrimSpace n) =? 0)%nat = false).
  { intros n Hne ->. split; [exact Hne|]. split; [apply TrimSpace_length|].
    split; [apply TrimSpace_idempotent|]. rewrite TrimSpace_idempotent.
    apply NewName_spec. exact Hne. }
  split; [|split].
  - intros n. unfold NewFirstName.
    destruct (String.length (TrimSpace s) =? 0)%nat eqn:E; [discriminate|].
    intros [= <-].
    assert (Hne : TrimSpace s <> "") by (intros H; rewrite H in E; discriminate).
    destruct (G _ Hne eq_refl) as (H1 & H2 & H3 & H4).
    repeat split; try assumption. rewrite H4, H3. reflexivity.
  - intros n. unfold NewLastName.
    destruct (String.length (TrimSpace s) =? 0)%nat eqn:E; [discriminate|].
    intros [= <-].
    assert (Hne : TrimSpace s <> "") by (intros H; rewrite H in E; discriminate).
    destruct (G _ Hne eq_refl) as (H1 & H2 & H3 & H4).
    repeat split; try assumption. rewrite H4, H3. reflexivity.
  - intros H. unfold NewFirstName, NewLastName. rewrite H. split; reflexivity.
Qed.

(** X2: a user name that [NewUsername] accepts is at most 50 bytes long
    and trimmed; written with [DefaultUsernameConverter.DomainToDB] it is
    read back by [DBToDomain] exactly when it is at least 3 bytes long, and
    is otherwise refused with [ErrInvalidUsername], because the length is
    checked before the trimming. *)
Theorem Username_read_back (s u : string) :
  NewUsername s = (u, None) ->
  u = TrimSpace s /\ (String.length u <= 50)%nat /\ TrimSpace u = u /\
  ((3 <= String.length u)%nat ->
   DefaultUsernameConverter_DBToDomain (DefaultUsernameConverter_DomainToDB u) = (u, None)) /\
  ((String.length u < 3)%nat ->
   DefaultUsernameConverter_DBToDomain (DefaultUsernameConverter_DomainToDB u)
     = ("", Some (DomainFailure ErrInvalidUsername))).
Proof.
  unfold NewUsername.
  destruct (String.length s <? 3)%nat eqn:E1; [discriminate|].
  destruct (50 <? String.length s)%nat eqn:E2; [discriminate|].
  cbn [orb]. intros [= <-].
  apply Nat.ltb_ge in E1, E2. pose proof (TrimSpace_length s) as HL.
  split; [reflexivity|]. split; [lia|]. split; [apply TrimSpace_idempotent|].
  unfold DefaultUsernameConverter_DBToDomain, DefaultUsernameConverter_DomainToDB,
    Username_String, NewUsername.
  split; intros H.
  - destruct (String.length (TrimSpace s) <? 3)%nat eqn:E3; [apply Nat.ltb_lt in E3; lia|].
    destruct (50 <? String.length (TrimSpace s))%nat eqn:E4; [apply Nat.ltb_lt in E4; lia|].
    cbn. rewrite TrimSpace_idempotent. reflexivity.
  - apply Nat.ltb_lt in H. rewrite H. reflexivity.
Qed.

(** ** The user aggregate under runs of mutator calls *)

Lemma mutate_cases (now : Time) (u : User) (c : Mutation) :
  id (mutate now u c) = id u /\ uuid (mutate now u c) = uuid u /\
  email (mutate now u c) = email u /\ username (mutate now u c) = username u /\
  password (mutate now u c) = password u /\ createdAt (mutate now u c) = createdAt u /\
  (UserStatus_IsValid (status u) = true -> UserStatus_IsValid (status (mutate now u c)) = true) /\
  (UserRole_IsValid (role u) = true -> UserRole_IsValid (role (mutate now u c)) = true) /\
  (isVerified u = true -> isVerified (mutate now u c) = true) /\
  (is_Some (lastLoginAt u) -> is_Some (lastLoginAt (mutate now u c))) /\
  (updatedAt (mutate now u c) = updatedAt u \/ updatedAt (mutate now u c) = now) /\
  (lastLoginAt (mutate now u c) = lastLoginAt u \/
   lastLoginAt (mutate now u c) = Some now /\ updatedAt (mutate now u c) = now).
Proof.
  destruct c; cbn [mutate].
  - unfold User_ChangeStatus. destruct (UserStatus_IsValid st) eqn:E; cbn; auto 20.
  - unfold User_ChangeRole. destruct (UserRole_IsValid r) eqn:E; cbn; auto 20.
  - unfold User_UpdateProfile. destruct f, l, m, t; cbn; auto 20.
  - cbn; auto 20.
  - cbn. repeat split; eauto.
  - unfold User_AddTag. destruct (indexOfTag tag (tags u)); cbn; auto 20.
  - unfold User_RemoveTag. destruct (indexOfTag tag (tags u)); cbn; auto 20.
Qed.

(** X3: no run of mutator calls changes the identifier, the UUID, the
    email, the user name, the password hash or the creation time of a user;
    a valid status and a valid role stay valid; a verified user stays
    verified; a recorded login is never erased. *)
Theorem mutateAll_keeps (calls : list (Time * Mutation)) (u : User) :
  let u' := mutateAll u calls in
  id u' = id u /\ uuid u' = uuid u /\ email u' = email u /\ username u' = username u /\
  password u' = password u /\ createdAt u' = createdAt u /\
  (UserStatus_IsValid (status u) = true -> UserStatus_IsValid (status u') = true) /\
  (UserRole_IsValid (role u) = true -> UserRole_IsValid (role u') = true) /\
  (isVerified u = true -> isVerified u' = true) /\
  (is_Some (lastLoginAt u) -> is_Some (lastLoginAt u')).
Proof.
  revert u. induction calls as [|[now c] calls IH]; intros u; cbn [mutateAll].
  - cbn. repeat split; auto.
  - specialize (IH (mutate now u c)). cbn zeta in IH.
    destruct IH as (I1 & I2 & I3 & I4 & I5 & I6 & I7 & I8 & I9 & I10).
    destruct (mutate_cases now u c) as (M1 & M2 & M3 & M4 & M5 & M6 & M7 & M8 & M9 & M10 & _).
    cbn zeta. repeat split; try congruence; auto.
Qed.

(** X4: over a run of mutator calls whose clock readings never go back,
    starting from a reading not before the last update, [updatedAt] never
    decreases, and it stays at or after the creation time and the last login
    if it was there before the run. *)
Theorem mutateAll_updatedAt (calls : list (Time * Mutation)) (u : User) (t : Z) :
  (instant (updatedAt u) <= t)%Z ->
  clockMonotone t calls ->
  let u' := mutateAll u calls in
  (instant (updatedAt u) <= instant (updatedAt u'))%Z /\
  ((instant (createdAt u) <= instant (updatedAt u))%Z ->
   (instant (createdAt u') <= instant (updatedAt u'))%Z) /\
  ((forall l, lastLoginAt u = Some l -> (instant l <= instant (updatedAt u))%Z) ->
   forall l, lastLoginAt u' = Some l -> (instant l <= instant (updatedAt u'))%Z).
Proof.
  revert u t. induction calls as [|[now c] calls IH]; intros u t Ht Hm; cbn [mutateAll].
  - cbn. repeat split; auto. lia.
  - destruct Hm as [Hnow Hm].
    destruct (mutate_cases now u c) as (_ & _ & _ & _ & _ & M6 & _ & _ & _ & _ & MU & ML).
    assert (H1 : (instant (updatedAt (mutate now u c)) <= instant now)%Z)
      by (destruct MU as [-> | ->]; lia).
    assert (H0 : (instant (updatedAt u) <= instant (updatedAt (mutate now u c)))%Z)
      by (destruct MU as [-> | ->]; lia).
    destruct (IH (mutate now u c) (instant now) H1 Hm) as (I1 & I2 & I3). cbn zeta in *.
    split; [lia|]. split.
    + intros Hc. apply I2. rewrite M6. lia.
    + intros Hl. apply I3. intros l El. destruct ML as [ML | [ML MN]].
      * rewrite ML in El. specialize (Hl l El). lia.
      * rewrite ML in El. injection El as <-. rewrite MN. lia.
Qed.

(** ** Tags *)

Lemma indexOfTag_Some (tag : string) (l : list string) (i : nat) :
  indexOfTag tag l = Some i ->
  exists l1 l2, l = (l1 ++ tag :: l2)%list /\ (tag ∉ l1) /\ length l1 = i /\
    (firstn i l ++ skipn (i + 1) l)%list = (l1 ++ l2)%list.
Proof.
  revert i. induction l as [|x l IH]; intros i; cbn; [discriminate|].
  destruct (String.eqb x tag) eqn:E.
  - apply String.eqb_eq in E. subst x. intros [= <-].
    exists [], l. repeat split. apply not_elem_of_nil.
  - apply String.eqb_neq in E. destruct (indexOfTag tag l) as [j|]; [|discriminate].
    cbn. intros [= <-]. destruct (IH j eq_refl) as (l1 & l2 & -> & Hn & Hl & Hr).
    exists (x :: l1), l2. split; [reflexivity|].
    split; [rewrite not_elem_of_cons; split; [congruence | exact Hn]|].
    split; [cbn; congruence|]. cbn. rewrite <- Hr. reflexivity.
Qed.

Lemma tags_AddTag (now : Time) (u : User) (tag : string) :
  tags (User_AddTag now u tag) = if decide (tag ∈ tags u) then tags u else (tags u ++ [tag])%list.
Proof.
  unfold User_AddTag. destruct (indexOfTag tag (tags u)) as [i|] eqn:E.
  - destruct (decide (tag ∈ tags u)) as [|N]; [reflexivity|].
    apply indexOfTag_None in N. congruence.
  - apply indexOfTag_None in E. destruct (decide (tag ∈ tags u)); [contradiction | reflexivity].
Qed.

(** X5: [AddTag] keeps a duplicate-free tag list duplicate-free and leaves
    the tag in the list; adding a tag that is there changes nothing, not even
    [updatedAt], so adding twice is adding once; a new tag goes to the end,
    and removing it again gives back the tags as they were. *)
Theorem AddTag_set_like (now later : Time) (u : User) (tag : string) :
  tag ∈ tags (User_AddTag now u tag) /\
  (NoDup (tags u) -> NoDup (tags (User_AddTag now u tag))) /\
  (tag ∈ tags u -> User_AddTag now u tag = u) /\
  User_AddTag later (User_AddTag now u tag) tag = User_AddTag now u tag /\
  (tag ∉ tags u ->
   tags (User_AddTag now u tag) = (tags u ++ [tag])%list /\
   tags (User_RemoveTag later (User_AddTag now u tag) tag) = tags u).
Proof.
  assert (Hin : tag ∈ tags (User_AddTag now u tag)).
  { rewrite tags_AddTag. destruct (decide (tag ∈ tags u)); [assumption|].
    apply elem_of_app. right. apply list_elem_of_singleton. reflexivity. }
  assert (Hid : forall t v, tag ∈ tags v -> User_AddTag t v tag = v).
  { intros t v H. unfold User_AddTag. destruct (indexOfTag tag (tags v)) eqn:E; [reflexivity|].
    apply indexOfTag_None in E. contradiction. }
  split; [exact Hin|]. split; [|split; [apply Hid | split; [apply Hid; exact Hin|]]].
  - intros H. rewrite tags_AddTag. destruct (decide (tag ∈ tags u)); [assumption|].
    apply NoDup_app. split; [assumption|]. split; [|apply NoDup_singleton].
    intros x Hx Hx'. apply list_elem_of_singleton in Hx'. subst. contradiction.
  - intros H. assert (Ht : tags (User_AddTag now u tag) = (tags u ++ [tag])%list).
    { rewrite tags_AddTag. destruct (decide (tag ∈ tags u)); [contradiction | reflexivity]. }
    split; [exact Ht|]. unfold User_RemoveTag.
    destruct (indexOfTag tag (tags (User_AddTag now u tag))) as [i|] eqn:E.
    + destruct (indexOfTag_Some _ _ _ E) as (l1 & l2 & Hl & Hn & _ & Hr).
      cbn [tags set_tags set_updatedAt]. rewrite Hr. rewrite Ht in Hl.
      assert (l2 = [] /\ l1 = tags u) as [-> ->].
      { destruct l2 as [|y l2].
        - apply app_inj_tail in Hl. destruct Hl as [-> _]. split; reflexivity.
        - exfalso. destruct (exists_last (l := y :: l2)) as (l3 & z & Hz); [discriminate|].
          rewrite Hz in Hl.
          replace (l1 ++ tag :: l3 ++ [z])%list with ((l1 ++ tag :: l3) ++ [z])%list in Hl
            by (rewrite <- app_assoc; reflexivity).
          apply app_inj_tail in Hl. destruct Hl as [Hl _]. apply H. rewrite Hl.
          apply elem_of_app. right. apply elem_of_cons. left. reflexivity. }
      apply app_nil_r.
    + apply indexOfTag_None in E. contradiction.
Qed.

(** X6: [RemoveTag] of a tag that is in the list removes its first
    occurrence and nothing else, keeping the order of the rest; it keeps a
    duplicate-free list duplicate-free, and then the tag is gone.  A tag that
    is not in the list leaves the user as it was. *)
Theorem RemoveTag_first (now : Time) (u : User) (tag : string) :
  (tag ∈ tags u ->
   exists l1 l2, tags u = (l1 ++ tag :: l2)%list /\ (tag ∉ l1) /\
     tags (User_RemoveTag now u tag) = (l1 ++ l2)%list /\
     (NoDup (tags u) ->
      NoDup (tags (User_RemoveTag now u tag)) /\ tag ∉ tags (User_RemoveTag now u tag))) /\
  (tag ∉ tags u -> User_RemoveTag now u tag = u).
Proof.
  split; intros H.
  - unfold User_RemoveTag. destruct (indexOfTag tag (tags u)) as [i|] eqn:E.
    + destruct (indexOfTag_Some _ _ _ E) as (l1 & l2 & Hl & Hn & _ & Hr).
      exists l1, l2. cbn [tags set_tags set_updatedAt]. rewrite Hr.
      split; [exact Hl|]. split; [exact Hn|]. split; [reflexivity|].
      intros ND. rewrite Hl in ND. apply NoDup_app in ND as (N1 & N2 & N3).
      apply NoDup_cons in N3 as [N3 N4]. split.
      * apply NoDup_app. split; [exact N1|]. split; [|exact N4].
        intros x Hx Hx'. apply (N2 x Hx). apply elem_of_cons. right. exact Hx'.
      * intros Hin. apply elem_of_app in Hin as [Hin|Hin]; contradiction.
    + apply indexOfTag_None in E. contradiction.
  - unfold User_RemoveTag. destruct (indexOfTag tag (tags u)) as [i|] eqn:E; [|reflexivity].
    destruct (indexOfTag_Some _ _ _ E) as (l1 & l2 & Hl & _). exfalso. apply H. rewrite Hl.
    apply elem_of_app. right. apply elem_of_cons. left. reflexivity.
Qed.

(** ** Sessions *)

(** X7: a new session is active, belongs to the user given, carries the
    fresh token, and is valid at a reading of the clock exactly when that
    reading is not after its creation plus the duration; with a negative
    duration it is invalid from its creation on. *)
Theorem NewUserSession_window
    (fresh : UUID) (created now : Time) (userID : UserID) (ip : IP) (agent : string)
    (info : SessionDeviceInfo) (D : Duration) :
  let s := NewUserSession fresh created userID ip agent info D in
  s_isActive s = true /\ s_userID s = userID /\ s_token s = fresh /\
  s_createdAt s = created /\
  (UserSession_IsValid now s = true <-> (instant now <= instant created + D)%Z) /\
  ((D < 0)%Z -> UserSession_IsValid created s = false).
Proof.
  cbn zeta. repeat split; try reflexivity.
  - intros H. apply UserSession_IsValid_spec in H. exact (proj2 H).
  - intros H. apply UserSession_IsValid_spec. split; [reflexivity | exact H].
  - intros H. destruct (UserSession_IsValid created _) eqn:E; [|reflexivity].
    apply UserSession_IsValid_spec in E. cbn in E. lia.
Qed.

Lemma sessionCall_keeps (s : UserSession) (c : SessionCall) :
  s_token (sessionCall s c) = s_token s /\ s_userID (sessionCall s c) = s_userID s /\
  s_id (sessionCall s c) = s_id s /\ s_createdAt (sessionCall s c) = s_createdAt s /\
  (s_isActive s = false -> s_isActive (sessionCall s c) = false).
Proof. destruct c; cbn; auto. Qed.

(** X8: no run of [Deactivate] and [Extend] calls changes the token, the
    owner, the identifier or the creation time of a session, and none makes
    a session that is not active valid again: after [Deactivate], the
    session is invalid at every reading of the clock, whatever is called on
    it afterwards. *)
Theorem sessionCalls_terminal (calls : list SessionCall) (s : UserSession) (now : Time) :
  s_token (sessionCalls s calls) = s_token s /\
  s_userID (sessionCalls s calls) = s_userID s /\
  s_id (sessionCalls s calls) = s_id s /\
  s_createdAt (sessionCalls s calls) = s_createdAt s /\
  (s_isActive s = false -> UserSession_IsValid now (sessionCalls s calls) = false) /\
  UserSession_IsValid now (sessionCalls (UserSession_Deactivate s) calls) = false.
Proof.
  assert (G : forall cs t, s_token (sessionCalls t cs) = s_token t /\
            s_userID (sessionCalls t cs) = s_userID t /\ s_id (sessionCalls t cs) = s_id t /\
            s_createdAt (sessionCalls t cs) = s_createdAt t /\
            (s_isActive t = false -> s_isActive (sessionCalls t cs) = false)).
  { induction cs as [|c cs IH]; intros t; [cbn; auto|].
    unfold sessionCalls in *. cbn [fold_left].
    destruct (IH (sessionCall t c)) as (I1 & I2 & I3 & I4 & I5).
    destruct (sessionCall_keeps t c) as (K1 & K2 & K3 & K4 & K5).
    repeat split; try congruence. auto. }
  destruct (G calls s) as (G1 & G2 & G3 & G4 & G5).
  repeat split; try assumption.
  - intros H. unfold UserSession_IsValid. rewrite (G5 H). reflexivity.
  - unfold UserSession_IsValid.
    destruct (G calls (UserSession_Deactivate s)) as (_ & _ & _ & _ & H).
    rewrite (H eq_refl). reflexivity.
Qed.

(** X9: after [Extend] at a reading [now] with duration [d], an active
    session is valid exactly at the readings up to [now + d], whatever its
    expiry was: a session that had expired is valid again. *)
Theorem Extend_window (now t : Time) (s : UserSession) (d : Duration) :
  s_isActive s = true ->
  (UserSession_IsValid t (UserSession_Extend now s d) = true <->
   (instant t <= instant now + d)%Z) /\
  ((0 <= d)%Z -> UserSession_IsValid now (UserSession_Extend now s d) = true).
Proof.
  intros H.
  assert (G : forall t', UserSession_IsValid t' (UserSession_Extend now s d) = true <->
                         (instant t' <= instant now + d)%Z).
  { intros t'. rewrite UserSession_IsValid_spec. cbn. rewrite H. tauto. }
  split; [apply G|]. intros Hd. apply G. lia.
Qed.

(** X10: on a device info whose metadata map exists, [GetMetadata] after
    [SetMetadata] finds the value under its key and what was there under
    every other key, and the other fields are kept; on a device info whose
    map is [nil], [SetMetadata] has no effect and the key is still not
    found.  The device info made by [NewSessionDeviceInfo] has a map. *)
Theorem DeviceInfo_metadata (d : SessionDeviceInfo) (key other : string) (value : Any) :
  let d' := SessionDeviceInfo_SetMetadata d key value in
  (Metadata d <> None ->
   SessionDeviceInfo_GetMetadata d' key = (value, true) /\
   (other <> key ->
    SessionDeviceInfo_GetMetadata d' other = SessionDeviceInfo_GetMetadata d other)) /\
  (Metadata d = None ->
   d' = d /\ SessionDeviceInfo_GetMetadata d' key = (AnyNil, false)) /\
  Platform d' = Platform d /\ Device d' = Device d /\ Browser d' = Browser d /\
  Version d' = Version d /\
  SessionDeviceInfo_GetMetadata
    (SessionDeviceInfo_SetMetadata NewSessionDeviceInfo key value) key = (value, true).
Proof.
  cbn zeta. unfold SessionDeviceInfo_SetMetadata, SessionDeviceInfo_GetMetadata, GoMap_get.
  destruct d as [pl dv br ve [g|]]; cbn.
  - repeat split; try reflexivity; try discriminate.
    + rewrite lookup_insert_eq. reflexivity.
    + intros Hne. rewrite lookup_insert_ne by congruence. reflexivity.
    + rewrite lookup_insert_eq. reflexivity.
  - repeat split; try reflexivity; try contradiction.
    rewrite lookup_insert_eq. reflexivity.
Qed.

(** ** Events *)

Lemma EventType_IsValid_spec (e : EventType) :
  EventType_IsValid e = true <->
  e ∈ ["user.created"; "user.updated"; "user.deleted"; "user.activated";
       "user.deactivated"; "user.suspended"; "user.login"; "user.logout";
       "user.login.failed"; "user.verified"; "user.verification.requested";
       "password.changed"; "password.reset"; "password.reset.requested";
       "profile.updated"; "role.changed"].
Proof.
  unfold EventType_IsValid, validTypes.
  match goal with |- context [list_to_map ?l] => set (table := l) end.
  assert (ND : NoDup table.*1) by (apply (bool_decide_unpack _); vm_compute; exact I).
  assert (K : table.*1 = ["user.created"; "user.updated"; "user.deleted"; "user.activated";
       "user.deactivated"; "user.suspended"; "user.login"; "user.logout";
       "user.login.failed"; "user.verified"; "user.verification.requested";
       "password.changed"; "password.reset"; "password.reset.requested";
       "profile.updated"; "role.changed"]) by reflexivity.
  rewrite <- K.
  destruct (list_to_map (M := gmap string bool) table !! e) as [b|] eqn:E; cbn.
  - apply (elem_of_list_to_map_2 (M := gmap string)) in E.
    assert (b = true) as ->.
    { revert E. unfold table. rewrite !elem_of_cons, elem_of_nil.
      intros H. repeat (destruct H as [H|H]; [injection H as _ ->; reflexivity|]).
      contradiction. }
    split; [intros _|reflexivity].
    apply (list_elem_of_fmap_2 fst) in E. exact E.
  - apply (not_elem_of_list_to_map_2 (M := gmap string)) in E. split; [discriminate|].
    intros H. contradiction.
Qed.

(** X11: [EventType.IsValid] holds of the sixteen event types and of no
    other string; every event made by a constructor of the package has a
    valid type, the version [1.0], the time of the envelope it was given,
    the string of the fresh UUID as its [ID], and the same user in the
    envelope as in the payload. *)
Theorem event_constructors_wellformed
    (fresh : UUID) (now stamped : Time) (userID a b c d e f : string)
    (changes : gmap string Change) :
  (forall t : EventType, EventType_IsValid t = true <->
     t ∈ ["user.created"; "user.updated"; "user.deleted"; "user.activated";
          "user.deactivated"; "user.suspended"; "user.login"; "user.logout";
          "user.login.failed"; "user.verified"; "user.verification.requested";
          "password.changed"; "password.reset"; "password.reset.requested";
          "profile.updated"; "role.changed"]) /\
  Forall (fun ev =>
            EventType_IsValid (ev_Type ev) = true /\ ev_Version ev = "1.0" /\
            ev_Timestamp ev = now /\ ev_ID ev = UUID_String fresh /\
            ev_UserID ev = userID /\ payloadUserID ev = userID)
    [ UserCreated fresh now userID a b c d e f;
      UserUpdated fresh now userID changes a;
      UserLoggedIn fresh now userID a b c;
      UserLoginFailed fresh now userID a b c;
      UserVerified fresh stamped now userID a;
      RoleChanged fresh now userID a b c ].
Proof.
  split; [apply EventType_IsValid_spec|].
  repeat constructor.
Qed.

(** ** The in-memory publisher, continued *)

Lemma InMemory_fold_Publish (es : list UserEvent) (p : InMemoryEventPublisher) :
  fold_left (fun q e => fst (InMemory_Publish q e)) es p = mkInMemory (events p ++ es).
Proof.
  revert p. induction es as [|e es IH]; intros p; cbn [fold_left].
  - destruct p. cbn. rewrite app_nil_r. reflexivity.
  - rewrite IH. cbn. rewrite <- app_assoc. reflexivity.
Qed.

(** X12: [PublishBatch] leaves the publisher as publishing the events
    one by one, in order, does; after [Clear], [Events()] is empty, and
    after any further calls it is the events handed over since. *)
Theorem InMemory_batch_and_clear
    (p : InMemoryEventPublisher) (es : list UserEvent) (calls : list PublisherCall) :
  InMemory_PublishBatch p es
    = (fold_left (fun q e => fst (InMemory_Publish q e)) es p, None) /\
  InMemory_Events (InMemory_Clear p) = [] /\
  InMemory_Events (fst (InMemory_run (InMemory_Clear p) calls)) = concat (map published calls).
Proof.
  split; [rewrite InMemory_fold_Publish; reflexivity|]. split; [reflexivity|].
  apply (InMemory_run_spec calls (InMemory_Clear p)).
Qed.

(** ** Converters, continued *)

Lemma UUID_String_nonempty (u : UUID) : UUID_String u <> "".
Proof.
  unfold UUID_String. destruct (hexEncode (slice u 0 4)); cbn; discriminate.
Qed.

Lemma UUID_String_length (u : UUID) : UUID_wf u -> String.length (UUID_String u) = 36%nat.
Proof.
  intros H. destruct (UUID_wf_inv u H) as
    (b0 & b1 & b2 & b3 & b4 & b5 & b6 & b7 & b8 & b9 & b10 & b11 & b12 & b13 & b14 & b15 & ->).
  reflexivity.
Qed.

Lemma UUID_String_inj (u v : UUID) :
  UUID_wf u -> UUID_wf v -> UUID_String u = UUID_String v -> u = v.
Proof.
  intros Hu Hv E. pose proof (UUID_Parse_String u Hu) as Pu.
  rewrite E, (UUID_Parse_String v Hv) in Pu. congruence.
Qed.

(** X13: what one engine's UUID converter writes, another's may not
    read.  The string that the SQLite converter writes for a UUID other than
    [uuid.Nil] is read back by the PostgreSQL and the MySQL converter; the
    bytes of the MySQL converter are refused by the other two, and the
    native value of the PostgreSQL converter is refused by the other two,
    each with a [ConversionError]. *)
Theorem UUID_across_engines (u : UUID) :
  UUID_wf u -> u <> UUID_Nil ->
  PostgresUUIDConverter_DBToDomain (SQLiteUUIDConverter_DomainToDB u) = (u, None) /\
  MySQLUUIDConverter_DBToDomain (SQLiteUUIDConverter_DomainToDB u) = (u, None) /\
  SQLiteUUIDConverter_DBToDomain (MySQLUUIDConverter_DomainToDB u)
    = (UUID_Nil, Some (ConversionError "expected string for UUID" (DBBytes u))) /\
  PostgresUUIDConverter_DBToDomain (MySQLUUIDConverter_DomainToDB u)
    = (UUID_Nil, Some (ConversionError "expected UUID or string" (DBBytes u))) /\
  SQLiteUUIDConverter_DBToDomain (PostgresUUIDConverter_DomainToDB u)
    = (UUID_Nil, Some (ConversionError "expected string for UUID" (DBUUID u))) /\
  MySQLUUIDConverter_DBToDomain (PostgresUUIDConverter_DomainToDB u)
    = (UUID_Nil, Some (ConversionError "expected bytes or string for UUID" (DBUUID u))).
Proof.
  intros H N. unfold SQLiteUUIDConverter_DomainToDB.
  destruct (UUID_eqb u UUID_Nil) eqn:E; [apply UUID_eqb_spec in E; contradiction|].
  unfold PostgresUUIDConverter_DBToDomain, MySQLUUIDConverter_DBToDomain.
  rewrite (UUID_Parse_String u H). repeat split.
Qed.

(** X14: the SQLite UUID converter writes NULL for [uuid.Nil] and for no
    other UUID, writes a string of 36 bytes for every other UUID, reads NULL
    as [uuid.Nil], and never writes the same value for two different
    UUIDs. *)
Theorem SQLiteUUID_storage (u v : UUID) :
  (SQLiteUUIDConverter_DomainToDB u = DBNil <-> u = UUID_Nil) /\
  SQLiteUUIDConverter_DBToDomain DBNil = (UUID_Nil, None) /\
  (UUID_wf u -> u <> UUID_Nil ->
   exists s, SQLiteUUIDConverter_DomainToDB u = DBString s /\ String.length s = 36%nat) /\
  (UUID_wf u -> UUID_wf v ->
   SQLiteUUIDConverter_DomainToDB u = SQLiteUUIDConverter_DomainToDB v -> u = v).
Proof.
  unfold SQLiteUUIDConverter_DomainToDB. split; [|split; [reflexivity|split]].
  - destruct (UUID_eqb u UUID_Nil) eqn:E.
    + apply UUID_eqb_spec in E. tauto.
    + split; [discriminate|]. intros ->. unfold UUID_eqb in E.
      rewrite bool_decide_eq_false in E. contradiction.
  - intros H N. destruct (UUID_eqb u UUID_Nil) eqn:E; [apply UUID_eqb_spec in E; contradiction|].
    eexists. split; [reflexivity | apply UUID_String_length; exact H].
  - intros Hu Hv. destruct (UUID_eqb u UUID_Nil) eqn:Eu, (UUID_eqb v UUID_Nil) eqn:Ev;
      try discriminate.
    + apply UUID_eqb_spec in Eu, Ev. congruence.
    + intros [= E]. apply UUID_String_inj; assumption.
Qed.

(** X15: the MySQL UUID converter reads a byte slice exactly when it has
    16 bytes, and then as those bytes; any other length is the error of
    [uuid.FromBytes], with [uuid.Nil] beside it. *)
Theorem MySQLUUID_bytes (b : list byte) :
  (length b = 16%nat -> MySQLUUIDConverter_DBToDomain (DBBytes b) = (b, None)) /\
  (length b <> 16%nat ->
   MySQLUUIDConverter_DBToDomain (DBBytes b)
     = (UUID_Nil, Some (UUIDFailure (InvalidBytes (length b))))).
Proof.
  unfold MySQLUUIDConverter_DBToDomain, UUID_FromBytes, liftUUID. split; intros H.
  - rewrite H. reflexivity.
  - apply Nat.eqb_neq in H. rewrite H. reflexivity.
Qed.

(** X16: whatever the database name, the converter that [NewUUIDConverter]
    returns reads back every UUID it writes; a name other than [sqlite],
    [postgres] and [mysql] gives the SQLite converter, and
    [NewBoolConverter] gives the same converter for every name. *)
Theorem converter_factories (database : string) :
  (forall u : UUID, UUID_wf u ->
     uuid_DBToDomain (NewUUIDConverter database)
       (uuid_DomainToDB (NewUUIDConverter database) u) = (u, None)) /\
  (database ∉ ["sqlite"; "postgres"; "mysql"] ->
     NewUUIDConverter database = NewSQLiteUUIDConverter) /\
  NewUUIDConverter "sqlite" = NewSQLiteUUIDConverter /\
  NewUUIDConverter "postgres" = NewPostgresUUIDConverter /\
  NewUUIDConverter "mysql" = NewMySQLUUIDConverter /\
  NewBoolConverter database = NewSQLiteBoolConverter.
Proof.
  split; [|split; [|repeat split]].
  - intros u H. unfold NewUUIDConverter.
    assert (S1 : SQLiteUUIDConverter_DBToDomain (SQLiteUUIDConverter_DomainToDB u) = (u, None)).
    { unfold SQLiteUUIDConverter_DomainToDB. destruct (UUID_eqb u UUID_Nil) eqn:E.
      - apply UUID_eqb_spec in E. subst. reflexivity.
      - unfold SQLiteUUIDConverter_DBToDomain. rewrite (UUID_Parse_String u H). reflexivity. }
    destruct (String.eqb database "sqlite"); [exact S1|].
    destruct (String.eqb database "postgres"); [reflexivity|].
    destruct (String.eqb database "mysql"); [|exact S1].
    cbn. unfold MySQLUUIDConverter_DomainToDB, MySQLUUIDConverter_DBToDomain, UUID_FromBytes.
    rewrite H. reflexivity.
  - intros H. unfold NewUUIDConverter. rewrite !not_elem_of_cons in H.
    destruct H as (H1 & H2 & H3 & _).
    apply String.eqb_neq in H1, H2, H3. rewrite H1, H2, H3. reflexivity.
  - unfold NewBoolConverter. destruct (_ || _); reflexivity.
Qed.

(** X17: the boolean converter reads NULL, a boolean, either integer type
    and any string without an error, and fails, with [false] beside the
    error, on every other value; an integer is [true] exactly when it is not
    zero and a string exactly when it is [true] or [1], so that every other
    string is silently [false].  [mappers.ParseBool] gives the same boolean
    on every value, and [mappers.ParseInterface] the same string as
    [SafeString]. *)
Theorem Bool_tolerance (v : DBValue) :
  ParseBool v = fst (SQLiteBoolConverter_DBToDomain v) /\
  ParseInterface v = SafeString v /\
  (snd (SQLiteBoolConverter_DBToDomain v) = None <->
   v = DBNil \/ (exists b, v = DBBool b) \/ (exists z, v = DBInt64 z) \/
   (exists z, v = DBInt z) \/ (exists s, v = DBString s)) /\
  (snd (SQLiteBoolConverter_DBToDomain v) <> None ->
   SQLiteBoolConverter_DBToDomain v
     = (false, Some (ConversionError "expected bool, int, or string" v))) /\
  (forall z, fst (SQLiteBoolConverter_DBToDomain (DBInt64 z)) = true <-> z <> 0%Z) /\
  (forall z, fst (SQLiteBoolConverter_DBToDomain (DBInt z)) = true <-> z <> 0%Z) /\
  (forall s, fst (SQLiteBoolConverter_DBToDomain (DBString s)) = true <->
     s = "true" \/ s = "1").
Proof.
  split; [destruct v; reflexivity|]. split; [destruct v; reflexivity|].
  split; [|split; [|split; [|split]]].
  - destruct v; cbn; split; intros H; try reflexivity; try discriminate; eauto 10;
      destruct H as [H|[[? H]|[[? H]|[[? H]|[? H]]]]]; discriminate.
  - destruct v; cbn; intros H; try contradiction; reflexivity.
  - intros z. cbn. rewrite negb_true_iff, Z.eqb_neq. reflexivity.
  - intros z. cbn. rewrite negb_true_iff, Z.eqb_neq. reflexivity.
  - intros s. cbn. rewrite orb_true_iff, !String.eqb_eq. reflexivity.
Qed.

(** X18: the session token converter reads a string exactly when
    [uuid.Parse] reads it, a byte slice exactly when it has 16 bytes, and a
    UUID value always, each as the same token as the library gives; NULL
    and every other value are refused, so that these are the only values it
    reads; every error it returns is its own [ConversionError] around the
    value, with the zero token beside it. *)
Theorem SessionToken_DBToDomain_cases (db : DBValue) :
  (forall e, snd (DefaultSessionTokenConverter_DBToDomain db) = Some e ->
     fst (DefaultSessionTokenConverter_DBToDomain db) = UUID_Nil /\
     exists m, e = ConversionError m db) /\
  (forall s, db = DBString s ->
     (snd (DefaultSessionTokenConverter_DBToDomain db) = None <-> snd (UUID_Parse s) = None) /\
     (snd (UUID_Parse s) = None ->
      fst (DefaultSessionTokenConverter_DBToDomain db) = fst (UUID_Parse s))) /\
  (forall b, db = DBBytes b ->
     (length b = 16%nat -> DefaultSessionTokenConverter_DBToDomain db = (b, None)) /\
     (length b <> 16%nat -> snd (DefaultSessionTokenConverter_DBToDomain db) <> None)) /\
  (forall u, db = DBUUID u -> DefaultSessionTokenConverter_DBToDomain db = (u, None)) /\
  (db = DBNil ->
   DefaultSessionTokenConverter_DBToDomain db
     = (UUID_Nil, Some (ConversionError "expected string, UUID, or bytes" DBNil))) /\
  ((forall s, db <> DBString s) -> (forall b, db <> DBBytes b) -> (forall u, db <> DBUUID u) ->
   DefaultSessionTokenConverter_DBToDomain db
     = (UUID_Nil, Some (ConversionError "expected string, UUID, or bytes" db))) /\
  (snd (DefaultSessionTokenConverter_DBToDomain db) = None <->
   (exists s, db = DBString s /\ snd (UUID_Parse s) = None) \/
   (exists b, db = DBBytes b /\ length b = 16%nat) \/
   (exists u, db = DBUUID u)).
Proof.
  split; [|split; [|split; [|split; [|split; [|split]]]]].
  - intros e. destruct db; cbn; try (intros [= <-]; split; [reflexivity | eexists; reflexivity]).
    + destruct (UUID_Parse s) as [parsed [err|]]; cbn;
        [intros [= <-]; split; [reflexivity | eexists; reflexivity] | discriminate].
    + destruct (UUID_FromBytes b) as [parsed [err|]]; cbn;
        [intros [= <-]; split; [reflexivity | eexists; reflexivity] | discriminate].
    + discriminate.
  - intros s ->. cbn. destruct (UUID_Parse s) as [parsed [err|]]; cbn.
    + split; [split; discriminate | discriminate].
    + split; [split; reflexivity | reflexivity].
  - intros b ->. cbn. unfold UUID_FromBytes. split; intros H.
    + rewrite H. reflexivity.
    + apply Nat.eqb_neq in H. rewrite H. cbn. discriminate.
  - intros u ->. reflexivity.
  - intros ->. reflexivity.
  - intros HS HB HU. destruct db; try reflexivity.
    + destruct (HS s eq_refl).
    + destruct (HB b eq_refl).
    + destruct (HU u eq_refl).
  - split.
    + destruct db; cbn; try discriminate.
      * destruct (UUID_Parse s) as [parsed [err|]] eqn:E; cbn; [discriminate|].
        intros _. left. exists s. rewrite E. split; reflexivity.
      * unfold UUID_FromBytes. destruct (length b =? 16)%nat eqn:E; cbn; [|discriminate].
        intros _. right. left. exists b. apply Nat.eqb_eq in E. split; [reflexivity | exact E].
      * intros _. right. right. exists u. reflexivity.
    + intros [(s & -> & H)|[(b & -> & H)|(u & ->)]]; cbn.
      * destruct (UUID_Parse s) as [parsed [err|]]; [discriminate H | reflexivity].
      * unfold UUID_FromBytes. rewrite H. reflexivity.
      * reflexivity.
Qed.

(** X19: [mappers.ParseUUID] reads back what [mappers.FormatUUID] writes,
    for every UUID; the empty string stands for [uuid.Nil] and for nothing
    else. *)
Theorem FormatUUID_ParseUUID (u : UUID) :
  (UUID_wf u -> ParseUUID (FormatUUID u) = (u, None)) /\
  (FormatUUID u = "" <-> u = UUID_Nil) /\
  ParseUUID "" = (UUID_Nil, None).
Proof.
  unfold FormatUUID, ParseUUID. split; [|split; [|reflexivity]].
  - intros H. destruct (UUID_eqb u UUID_Nil) eqn:E.
    + apply UUID_eqb_spec in E. subst. reflexivity.
    + pose proof (UUID_String_nonempty u) as N. apply String.eqb_neq in N. rewrite N.
      apply UUID_Parse_String. exact H.
  - destruct (UUID_eqb u UUID_Nil) eqn:E.
    + apply UUID_eqb_spec in E. tauto.
    + split; [intros H; exfalso; exact (UUID_String_nonempty u H)|].
      intros ->. unfold UUID_eqb in E. rewrite bool_decide_eq_false in E. contradiction.
Qed.

(** ** The user service, continued *)

Lemma NewUsername_ok (s u : string) :
  NewUsername s = (u, None) -> u = TrimSpace s /\ (3 <= String.length s <= 50)%nat.
Proof.
  unfold NewUsername.
  destruct (String.length s <? 3)%nat eqn:E1; [discriminate|].
  destruct (50 <? String.length s)%nat eqn:E2; [discriminate|].
  apply Nat.ltb_ge in E1, E2. intros [= <-]. split; [reflexivity | lia].
Qed.

Lemma NewFirstName_ok (s n : string) :
  NewFirstName s = (n, None) -> n = TrimSpace s /\ TrimSpace s <> "".
Proof.
  unfold NewFirstName. destruct (String.length (TrimSpace s) =? 0)%nat eqn:E; [discriminate|].
  intros [= <-]. split; [reflexivity|]. intros H. rewrite H in E. discriminate.
Qed.

Lemma NewLastName_ok (s n : string) :
  NewLastName s = (n, None) -> n = TrimSpace s /\ TrimSpace s <> "".
Proof.
  unfold NewLastName. destruct (String.length (TrimSpace s) =? 0)%nat eqn:E; [discriminate|].
  intros [= <-]. split; [reflexivity|]. intros H. rewrite H in E. discriminate.
Qed.

Lemma NewPasswordHash_ok (s h : string) :
  NewPasswordHash s = (h, None) -> h = s /\ (32 <= String.length s)%nat.
Proof.
  unfold NewPasswordHash. destruct (String.length s <? 32)%nat eqn:E; [discriminate|].
  apply Nat.ltb_ge in E. intros [= <-]. split; [reflexivity | exact E].
Qed.

Lemma NewUser_ok (fresh : UUID) (now : Time) (e n p f l st r : string) (m : UserMetadata)
    (t : list string) (u : User) :
  NewUser fresh now e n p f l st r m t = inr u ->
  u = mkUser 0%Z fresh e n p f l st r false m t now now None /\
  UserStatus_IsValid st = true /\ UserRole_IsValid r = true.
Proof.
  unfold NewUser. destruct (UserStatus_IsValid st); [|discriminate].
  destruct (UserRole_IsValid r); [|discriminate]. cbn. intros [= <-]. auto.
Qed.

Section ServiceProperties.

Context (isValidEmail : string -> bool).
Context (ToLower : string -> string).
Context (ParseIP : string -> IP).
Context {R S P V : Type}.
Context `{!UserRepository R, !SessionRepository S, !SessionStore S,
          !EventPublisher P, !UserValidator V}.
Context (clockAt : nat -> Time) (entropyAt : nat -> UUID).

#[local] Abbreviation Run := (@M R S P V).
#[local] Abbreviation State := (@World R S P V).
#[local] Abbreviation createUser :=
  (CreateUser isValidEmail ToLower clockAt entropyAt : CreateUserRequest -> Run User).
#[local] Abbreviation updateUser :=
  (UpdateUser clockAt entropyAt : UpdateUserRequest -> Run User).
#[local] Abbreviation authenticateUser :=
  (AuthenticateUser isValidEmail ToLower ParseIP clockAt entropyAt
     : string -> string -> string -> string -> Run UserSession).

Ltac svc_unfold H :=
  unfold updateProfile, changeRole, isValid, isExpired, newEvent, check, checked in H;
  unfold onUsers, onSessions, withValidator, fail, publish, timeNow, uuidNew in H;
  unfold mbind, M_bind, mret, M_ret in H.

Ltac svc_simpl H :=
  cbn [fst snd userRepo sessionRepo eventPub validator ticks draws handed negb] in H.

Ltac svc_done H :=
  lazymatch type of H with
  | (inl _, _) = (inr _, _) => discriminate H
  | (inr _, _) = (inl _, _) => discriminate H
  | _ => idtac
  end.

Ltac svc_case H :=
  match type of H with
  | context [match ?x with _ => _ end] =>
      lazymatch x with
      | context [match _ with _ => _ end] => fail
      | _ => destruct x eqn:?
      end
  end; svc_simpl H; svc_done H.

(** X20: when [CreateUser] succeeds, the validator and every constructor
    have accepted the request, and the user returned is the one that
    [Create] gave back for the user made from the request: not verified,
    never logged in, created and updated at the same reading of the clock,
    with the names trimmed, the tags of the request, and an empty metadata
    map whatever metadata the request carried. *)
Theorem CreateUser_success_means (req : CreateUserRequest) (w w' : State) (user : User) :
  createUser req w = (inr user, w') ->
  exists r0 r1 made email,
    users_Create r0 made = (r1, user, None) /\
    userRepo w' = r1 /\
    NewEmail isValidEmail ToLower (cr_Email req) = (email, None) /\
    made = mkUser 0%Z (entropyAt (draws w)) email (TrimSpace (cr_Username req))
             (cr_PasswordHash req) (TrimSpace (cr_FirstName req))
             (TrimSpace (cr_LastName req)) (cr_Status req) (cr_Role req) false
             (Some ∅) (cr_Tags req) (clockAt (ticks w)) (clockAt (ticks w)) None /\
    ValidateUserCreate (validator w) (cr_Email req) (cr_Username req) (cr_FirstName req)
      (cr_LastName req) = None /\
    (3 <= String.length (cr_Username req) <= 50)%nat /\
    TrimSpace (cr_FirstName req) <> "" /\ TrimSpace (cr_LastName req) <> "" /\
    (32 <= String.length (cr_PasswordHash req))%nat /\
    UserStatus_IsValid (cr_Status req) = true /\ UserRole_IsValid (cr_Role req) = true.
Proof.
  intros H. unfold CreateUser in H. svc_unfold H. svc_simpl H.
  repeat svc_case H. injection H as <- <-.
  repeat match goal with
  | E : NewUsername _ = _ |- _ => apply NewUsername_ok in E as [-> ?]
  | E : NewFirstName _ = _ |- _ => apply NewFirstName_ok in E as [-> ?]
  | E : NewLastName _ = _ |- _ => apply NewLastName_ok in E as [-> ?]
  | E : NewPasswordHash _ = _ |- _ => apply NewPasswordHash_ok in E as [-> ?]
  | E : NewUser _ _ _ _ _ _ _ _ _ _ _ = _ |- _ => apply NewUser_ok in E as (-> & ? & ?)
  end.
  do 4 eexists. split; [eassumption|]. cbn [userRepo]. repeat split; auto; lia.
Qed.

(** X21: a call of [CreateUser] that fails hands nothing to the
    publisher and leaves the publisher and the session repository as they
    were.  When the lookup by email, or else the lookup by user name, finds
    a user, the call fails with [ErrUserAlreadyExists] and the user
    repository is left as that lookup left it. *)
Theorem CreateUser_failure (req : CreateUserRequest) (w : State) :
  (forall e w', createUser req w = (inl e, w') ->
     handed w' = handed w /\ eventPub w' = eventPub w /\ sessionRepo w' = sessionRepo w) /\
  (ValidateUserCreate (validator w) (cr_Email req) (cr_Username req) (cr_FirstName req)
     (cr_LastName req) = None ->
   forall r found, users_GetByEmail (userRepo w) (cr_Email req) = (r, inr found) ->
     fst (createUser req w) = inl ErrUserAlreadyExists /\
     userRepo (snd (createUser req w)) = r) /\
  (ValidateUserCreate (validator w) (cr_Email req) (cr_Username req) (cr_FirstName req)
     (cr_LastName req) = None ->
   forall r e r' found, users_GetByEmail (userRepo w) (cr_Email req) = (r, inl e) ->
     users_GetByUsername r (cr_Username req) = (r', inr found) ->
     fst (createUser req w) = inl ErrUserAlreadyExists /\
     userRepo (snd (createUser req w)) = r').
Proof.
  split; [|split].
  - intros e w' H. unfold CreateUser in H. svc_unfold H. svc_simpl H.
    repeat svc_case H; injection H as <- <-; cbn; auto.
  - intros HV r found HE. unfold CreateUser.
    unfold check, onUsers, withValidator, fail, mbind, M_bind, mret, M_ret.
    rewrite HV. cbn. rewrite HE. cbn. auto.
  - intros HV r e r' found HE HU. unfold CreateUser.
    unfold check, onUsers, withValidator, fail, mbind, M_bind, mret, M_ret.
    rewrite HV. cbn. rewrite HE. cbn. rewrite HU. cbn. auto.
Qed.

Lemma changes_nonempty (k : string) (c : Change) (m : gmap string Change) :
  (0 <? size (<[k := c]> m))%nat = true.
Proof.
  apply Nat.ltb_lt. destruct (size (<[k := c]> m)) eqn:E; [|lia].
  apply map_size_empty_iff in E. exfalso. exact (insert_non_empty m k c E).
Qed.

Ltac map_lookups :=
  repeat first
    [ rewrite lookup_insert_eq
    | rewrite lookup_insert_ne by (discriminate || congruence)
    | rewrite lookup_empty ].


Ltac svc_cbn :=
  cbn [fst snd userRepo sessionRepo eventPub validator ticks draws handed negb].

Ltac svc_run :=
  unfold updateProfile, changeRole, isValid, isExpired, newEvent, check, checked;
  unfold onUsers, onSessions, withValidator, fail, publish, timeNow, uuidNew;
  unfold mbind, M_bind, mret, M_ret;
  svc_cbn.



(** X25: when [VerifySession] succeeds, the token was a UUID that
    [uuid.Parse] reads, the session returned is the one the repository found
    under it, active and not after its expiry at the reading of the clock,
    and the user returned is the owner found by identifier and is active;
    the clock was read once and nothing was handed to the publisher. *)
Theorem VerifySession_success
    (token : string) (w w' : State) (session : UserSession) (user : User) :
  VerifySession clockAt token w = (inr (session, user), w') ->
  exists tokenUUID s' r',
    UUID_Parse token = (tokenUUID, None) /\
    sessions_GetByToken (sessionRepo w) tokenUUID = (s', inr session) /\
    users_GetByID (userRepo w) (s_userID session) = (r', inr user) /\
    UserSession_IsValid (clockAt (ticks w)) session = true /\
    User_IsActive user = true /\
    ticks w' = Datatypes.S (ticks w) /\ handed w' = handed w /\ eventPub w' = eventPub w.
Proof.
  intros H. unfold VerifySession in H.
  destruct (UUID_Parse token) as [tokenUUID [err|]] eqn:HP; [discriminate H|].
  svc_unfold H. svc_simpl H. repeat svc_case H. injection H as <- <- <-.
  exists tokenUUID. do 2 eexists. split; [reflexivity|]. split; [eassumption|].
  split; [eassumption|]. svc_cbn. unfold UserSession_IsValid.
  repeat match goal with
  | E : s_isActive _ = true |- _ => rewrite E
  | E : UserSession_IsExpired _ _ = false |- _ => rewrite E
  | E : negb (negb _) = false |- _ => rewrite negb_involutive in E; rewrite E
  | E : negb (User_IsActive _) = false |- _ => apply negb_false_iff in E; rewrite E
  end.
  repeat split.
Qed.

(** X26: how [VerifySession] rejects.  A token that [uuid.Parse] does
    not read is [ErrInvalidSessionToken], with nothing called.  Whatever
    error the lookup of the session returns, the caller sees
    [ErrSessionNotFound].  A session that is not active is
    [ErrSessionExpired] if it is past its expiry and [ErrSessionNotFound]
    otherwise; an active session past its expiry is [ErrSessionExpired],
    provided the clock does not go back between the two readings that are
    taken.  A valid session whose owner is not active is
    [ErrAccountInactive], also when the owner is suspended.  No outcome hands
    an event to the publisher. *)
Theorem VerifySession_rejections (token : string) (w : State) :
  let out := VerifySession clockAt token w in
  handed (snd out) = handed w /\
  (snd (UUID_Parse token) <> None -> out = (inl ErrInvalidSessionToken, w)) /\
  (forall tokenUUID, UUID_Parse token = (tokenUUID, None) ->
     (forall s' cause, sessions_GetByToken (sessionRepo w) tokenUUID = (s', inl cause) ->
        fst out = inl ErrSessionNotFound) /\
     (forall s' session, sessions_GetByToken (sessionRepo w) tokenUUID = (s', inr session) ->
        (s_isActive session = false ->
         fst out = inl (if UserSession_IsExpired (clockAt (ticks w)) session
                        then ErrSessionExpired else ErrSessionNotFound)) /\
        (s_isActive session = true ->
         UserSession_IsExpired (clockAt (ticks w)) session = true ->
         monotoneClock clockAt ->
         fst out = inl ErrSessionExpired) /\
        (UserSession_IsValid (clockAt (ticks w)) session = true ->
         forall r' user,
           users_GetByID (userRepo w) (s_userID session) = (r', inr user) ->
           User_IsActive user = false ->
           fst out = inl ErrAccountInactive))).
Proof.
  cbn zeta. split; [|split].
  - destruct (VerifySession clockAt token w) as [res w'] eqn:H. cbn [snd].
    unfold VerifySession in H.
    destruct (UUID_Parse token) as [tokenUUID [err|]] eqn:HP;
      [unfold fail in H; injection H as <- <-; reflexivity|].
    svc_unfold H. svc_simpl H. repeat svc_case H; injection H as <- <-; reflexivity.
  - intros H. unfold VerifySession. destruct (UUID_Parse token) as [tokenUUID [err|]];
      [reflexivity | contradiction].
  - intros tokenUUID HP. unfold VerifySession. rewrite HP. split.
    + intros s' cause HG. svc_run. rewrite HG. reflexivity.
    + intros s' session HG. svc_run. rewrite HG. svc_cbn. split; [|split].
      * intros HA. rewrite HA. svc_cbn.
        destruct (UserSession_IsExpired (clockAt (ticks w)) session); reflexivity.
      * intros HA HX HM. rewrite HA. svc_cbn. rewrite HX. svc_cbn.
        assert (HX' : UserSession_IsExpired (clockAt (Datatypes.S (ticks w))) session = true).
        { unfold UserSession_IsExpired, Time_After in *. apply Z.ltb_lt in HX.
          apply Z.ltb_lt. specialize (HM (ticks w) (Datatypes.S (ticks w))). lia. }
        rewrite HX'. reflexivity.
      * intros HV r' user HU HA. unfold UserSession_IsValid in HV.
        apply andb_true_iff in HV as [HV1 HV2]. rewrite HV1. svc_cbn.
        apply negb_true_iff in HV2. rewrite HV2. svc_cbn. rewrite HU. svc_cbn.
        rewrite HA. reflexivity.
Qed.

(** X27: [Logout] with a token that [uuid.Parse] does not read fails with
    [ErrInvalidSessionToken] and calls nothing; otherwise it succeeds exactly
    when [DeactivateByToken] returns no error, and fails with that error
    wrapped when it does.  It leaves the session repository as
    [DeactivateByToken] left it, never touches the user repository or the
    clock, and hands no event to the publisher. *)
Theorem Logout_outcomes (token : string) (w : State) :
  let out := Logout token w in
  (snd (UUID_Parse token) <> None -> out = (inl ErrInvalidSessionToken, w)) /\
  (forall tokenUUID s' err,
     UUID_Parse token = (tokenUUID, None) ->
     sessions_DeactivateByToken (sessionRepo w) tokenUUID = (s', err) ->
     fst out = match err with
               | None => inr tt
               | Some e => inl (WrappedError "failed to logout" e)
               end /\
     sessionRepo (snd out) = s') /\
  handed (snd out) = handed w /\ eventPub (snd out) = eventPub w /\
  userRepo (snd out) = userRepo w /\ ticks (snd out) = ticks w.
Proof.
  cbn zeta. unfold Logout. destruct (UUID_Parse token) as [tokenUUID [perr|]] eqn:HP.
  - split; [reflexivity|]. split; [intros ? ? ? [=]|]. repeat split.
  - split; [intros H; contradiction|]. svc_run.
    destruct (sessions_DeactivateByToken (sessionRepo w) tokenUUID) as [s1 err1] eqn:HD.
    svc_cbn. split.
    + intros t s' err [= <-] HD'. rewrite HD in HD'. injection HD' as <- <-.
      destruct err1; split; reflexivity.
    + destruct err1; repeat split.
Qed.


End ServiceProperties.

(** X29: [UserMetadata.Get] after [Set] on a map that exists finds the
    value under its key and what was there under every other key.  On the
    [nil] map [Set] panics, where [SessionDeviceInfo.SetMetadata] does
    nothing, and [Get] finds no key.  The map of [NewUserMetadata] exists and
    is empty. *)
Theorem UserMetadata_Set_Get (m : UserMetadata) (key other : string) (value : Any) :
  (m <> None ->
   exists m', UserMetadata_Set m key value = Some m' /\
     UserMetadata_Get m' key = (value, true) /\
     (other <> key -> UserMetadata_Get m' other = UserMetadata_Get m other)) /\
  (m = None ->
   UserMetadata_Set m key value = None /\ UserMetadata_Get m key = (AnyNil, false) /\
   SessionDeviceInfo_SetMetadata (mkDeviceInfo "" "" "" "" m) key value
     = mkDeviceInfo "" "" "" "" m) /\
  UserMetadata_Get NewUserMetadata key = (AnyNil, false) /\
  UserMetadata_Set NewUserMetadata key value <> None.
Proof.
  unfold UserMetadata_Get, GoMap_get, UserMetadata_Set, NewUserMetadata.
  split; [|split; [|split]].
  - intros Hm. destruct m as [g|]; [|contradiction].
    eexists. split; [reflexivity|]. split.
    + rewrite lookup_insert_eq. reflexivity.
    + intros Hne. rewrite lookup_insert_ne by congruence. reflexivity.
  - intros ->. repeat split.
  - rewrite lookup_empty. reflexivity.
  - discriminate.
Qed.

(** * The further theorems at concrete inputs *)

(** A first name with a space on either side, and a last name of spaces. *)
Lemma NewName_normal_form_witness :
  (TrimSpace "John" = "John" /\ NewFirstName "John" = ("John", None)) /\
  NewLastName "   " = ("", Some ErrInvalidLastName).
Proof.
  split.
  - destruct (NewName_normal_form " John ") as (H & _ & _).
    destruct (H "John") as (_ & _ & _ & H4 & H5); [vm_compute; reflexivity|].
    split; [exact H4 | exact H5].
  - destruct (NewName_normal_form "   ") as (_ & _ & H).
    apply H. vm_compute. reflexivity.
Defined.

(** A padded name of two letters is accepted and cannot be read back. *)
Lemma Username_read_back_witness :
  DefaultUsernameConverter_DBToDomain (DefaultUsernameConverter_DomainToDB "ab")
    = ("", Some (DomainFailure ErrInvalidUsername)) /\
  DefaultUsernameConverter_DBToDomain (DefaultUsernameConverter_DomainToDB "testuser")
    = ("testuser", None).
Proof.
  split.
  - destruct (Username_read_back " ab " "ab") as (_ & _ & _ & _ & H);
      [vm_compute; reflexivity|]. apply H. cbn. lia.
  - destruct (Username_read_back " testuser " "testuser") as (_ & _ & _ & H & _);
      [vm_compute; reflexivity|]. apply H. cbn. lia.
Defined.

(** A login, a verification and a change of role on an active user. *)
Lemma mutateAll_keeps_witness :
  let u' := mutateAll (sampleUser "active")
              [(sampleClock 1, CallRecordLogin); (sampleClock 2, CallVerify);
               (sampleClock 3, CallChangeRole "admin")] in
  email u' = "test@example.com" /\ UserStatus_IsValid (status u') = true /\
  UserRole_IsValid (role u') = true.
Proof.
  cbn zeta.
  destruct (mutateAll_keeps
              [(sampleClock 1, CallRecordLogin); (sampleClock 2, CallVerify);
               (sampleClock 3, CallChangeRole "admin")] (sampleUser "active"))
    as (_ & _ & H3 & _ & _ & _ & H7 & H8 & _).
  split; [exact H3|]. split; [apply H7 | apply H8]; vm_compute; reflexivity.
Defined.

(** The same run, on a clock that ticks between the calls. *)
Lemma mutateAll_updatedAt_witness :
  let u' := mutateAll (sampleUser "active")
              [(sampleClock 1, CallRecordLogin); (sampleClock 2, CallVerify);
               (sampleClock 3, CallChangeRole "admin")] in
  (instant (updatedAt (sampleUser "active")) <= instant (updatedAt u'))%Z /\
  (instant (createdAt u') <= instant (updatedAt u'))%Z.
Proof.
  cbn zeta.
  destruct (mutateAll_updatedAt
              [(sampleClock 1, CallRecordLogin); (sampleClock 2, CallVerify);
               (sampleClock 3, CallChangeRole "admin")] (sampleUser "active") 1700000000%Z)
    as (H1 & H2 & _).
  - vm_compute. discriminate.
  - vm_compute. repeat split; discriminate.
  - split; [exact H1|]. apply H2. vm_compute. discriminate.
Defined.

(** A second tag on a user with one tag, added twice and removed again. *)
Lemma AddTag_set_like_witness :
  let u := User_AddTag (sampleClock 1) (sampleUser "active") "developer" in
  tags (User_AddTag (sampleClock 2) u "vip") = ["developer"; "vip"] /\
  User_AddTag (sampleClock 3) u "developer" = u /\
  tags (User_RemoveTag (sampleClock 3) (User_AddTag (sampleClock 2) u "vip") "vip")
    = ["developer"].
Proof.
  cbn zeta.
  destruct (AddTag_set_like (sampleClock 2) (sampleClock 3)
              (User_AddTag (sampleClock 1) (sampleUser "active") "developer") "vip")
    as (_ & _ & _ & _ & H).
  destruct H as [H1 H2]; [apply (bool_decide_unpack _); vm_compute; exact I|].
  destruct (AddTag_set_like (sampleClock 3) (sampleClock 3)
              (User_AddTag (sampleClock 1) (sampleUser "active") "developer") "developer")
    as (_ & _ & H3 & _).
  split; [exact H1|]. split; [|exact H2].
  apply H3. apply (bool_decide_unpack _). vm_compute. exact I.
Defined.

(** A tag that is not there, and a tag that is there twice. *)
Lemma RemoveTag_first_witness :
  User_RemoveTag (sampleClock 4) (sampleUser "active") "vip" = sampleUser "active" /\
  exists l1 l2,
    ["a"; "b"; "a"] = (l1 ++ "a" :: l2)%list /\ ("a" ∉ l1) /\
    tags (User_RemoveTag (sampleClock 4) (set_tags ["a"; "b"; "a"] (sampleUser "active")) "a")
      = (l1 ++ l2)%list /\
    tags (User_RemoveTag (sampleClock 4) (set_tags ["a"; "b"; "a"] (sampleUser "active")) "a")
      = ["b"; "a"].
Proof.
  split.
  - destruct (RemoveTag_first (sampleClock 4) (sampleUser "active") "vip") as [_ H].
    apply H. apply not_elem_of_nil.
  - destruct (RemoveTag_first (sampleClock 4) (set_tags ["a"; "b"; "a"] (sampleUser "active"))
                "a") as [H _].
    destruct H as (l1 & l2 & H1 & H2 & H3 & _);
      [apply (bool_decide_unpack _); vm_compute; exact I|].
    exists l1, l2. split; [exact H1|]. split; [exact H2|]. split; [exact H3|].
    vm_compute. reflexivity.
Defined.

(** A session made with a negative duration. *)
Lemma NewUserSession_window_witness :
  UserSession_IsValid (sampleClock 0)
    (NewUserSession (sampleEntropy 1) (sampleClock 0) 7%Z [] "test-user-agent"
       NewSessionDeviceInfo (-1)%Z) = false.
Proof.
  destruct (NewUserSession_window (sampleEntropy 1) (sampleClock 0) (sampleClock 0) 7%Z []
              "test-user-agent" NewSessionDeviceInfo (-1)%Z) as (_ & _ & _ & _ & _ & H).
  apply H. lia.
Defined.

(** A session that is not active, extended. *)
Lemma sessionCalls_terminal_witness :
  UserSession_IsValid (sampleClock 0)
    (sessionCalls (sampleSession 1800000000 false) [CallExtend (sampleClock 0) 3600%Z]) = false.
Proof.
  destruct (sessionCalls_terminal [CallExtend (sampleClock 0) 3600%Z]
              (sampleSession 1800000000 false) (sampleClock 0)) as (_ & _ & _ & _ & H & _).
  apply H. reflexivity.
Defined.

(** A session that expired at 0, extended by an hour. *)
Lemma Extend_window_witness :
  UserSession_IsValid (sampleClock 0)
    (UserSession_Extend (sampleClock 0) (sampleSession 0 true) Hour) = true.
Proof.
  destruct (Extend_window (sampleClock 0) (sampleClock 0) (sampleSession 0 true) Hour eq_refl)
    as [_ H].
  apply H. vm_compute. discriminate.
Defined.

(** The device info of [NewSessionDeviceInfo], and one without a map. *)
Lemma DeviceInfo_metadata_witness :
  SessionDeviceInfo_GetMetadata
    (SessionDeviceInfo_SetMetadata NewSessionDeviceInfo "user_agent" (AnyString "curl"))
    "user_agent" = (AnyString "curl", true) /\
  SessionDeviceInfo_GetMetadata
    (SessionDeviceInfo_SetMetadata (mkDeviceInfo "" "" "" "" None) "user_agent"
       (AnyString "curl"))
    "user_agent" = (AnyNil, false).
Proof.
  split.
  - destruct (DeviceInfo_metadata NewSessionDeviceInfo "user_agent" "other" (AnyString "curl"))
      as (H & _).
    apply H. discriminate.
  - destruct (DeviceInfo_metadata (mkDeviceInfo "" "" "" "" None) "user_agent" "other"
                (AnyString "curl")) as (_ & H & _).
    apply H. reflexivity.
Defined.

(** One UUID written for SQLite and for MySQL, read by the other engines. *)
Lemma UUID_across_engines_witness :
  PostgresUUIDConverter_DBToDomain (SQLiteUUIDConverter_DomainToDB (sampleEntropy 7))
    = (sampleEntropy 7, None) /\
  SQLiteUUIDConverter_DBToDomain (MySQLUUIDConverter_DomainToDB (sampleEntropy 7))
    = (UUID_Nil, Some (ConversionError "expected string for UUID" (DBBytes (sampleEntropy 7)))).
Proof.
  destruct (UUID_across_engines (sampleEntropy 7)) as (H1 & _ & H3 & _).
  - reflexivity.
  - discriminate.
  - split; [exact H1 | exact H3].
Defined.

(** The string of one UUID. *)
Lemma SQLiteUUID_storage_witness :
  exists s, SQLiteUUIDConverter_DomainToDB (sampleEntropy 7) = DBString s /\
    String.length s = 36%nat.
Proof.
  destruct (SQLiteUUID_storage (sampleEntropy 7) (sampleEntropy 7)) as (_ & _ & H & _).
  apply H; [reflexivity | discriminate].
Defined.

(** Sixteen bytes and three bytes. *)
Lemma MySQLUUID_bytes_witness :
  MySQLUUIDConverter_DBToDomain (DBBytes (sampleEntropy 7)) = (sampleEntropy 7, None) /\
  MySQLUUIDConverter_DBToDomain (DBBytes [x01; x02; x03])
    = (UUID_Nil, Some (UUIDFailure (InvalidBytes 3))).
Proof.
  split.
  - destruct (MySQLUUID_bytes (sampleEntropy 7)) as [H _]. apply H. reflexivity.
  - destruct (MySQLUUID_bytes [x01; x02; x03]) as [_ H]. apply H. cbn. lia.
Defined.

(** A database name that the factory does not know. *)
Lemma converter_factories_witness :
  NewUUIDConverter "oracle" = NewSQLiteUUIDConverter /\
  uuid_DBToDomain (NewUUIDConverter "oracle")
    (uuid_DomainToDB (NewUUIDConverter "oracle") (sampleEntropy 7)) = (sampleEntropy 7, None).
Proof.
  destruct (converter_factories "oracle") as (H1 & H2 & _).
  split.
  - apply H2. apply (bool_decide_unpack _). vm_compute. exact I.
  - apply H1. reflexivity.
Defined.

(** A floating-point value is refused; the string [yes] is read as false. *)
Lemma Bool_tolerance_witness :
  SQLiteBoolConverter_DBToDomain (DBFloat 0)
    = (false, Some (ConversionError "expected bool, int, or string" (DBFloat 0))) /\
  SQLiteBoolConverter_DBToDomain (DBString "yes") = (false, None).
Proof.
  split.
  - destruct (Bool_tolerance (DBFloat 0)) as (_ & _ & _ & H & _).
    apply H. vm_compute. discriminate.
  - vm_compute. reflexivity.
Defined.

(** A token in a string column, one that is not a UUID, and an integer. *)
Lemma SessionToken_DBToDomain_cases_witness :
  fst (DefaultSessionTokenConverter_DBToDomain (DBString sampleToken))
    = fst (UUID_Parse sampleToken) /\
  DefaultSessionTokenConverter_DBToDomain (DBInt64 5)
    = (UUID_Nil, Some (ConversionError "expected string, UUID, or bytes" (DBInt64 5))) /\
  exists m, snd (DefaultSessionTokenConverter_DBToDomain (DBString "no token"))
    = Some (ConversionError m (DBString "no token")).
Proof.
  split; [|split].
  - destruct (SessionToken_DBToDomain_cases (DBString sampleToken)) as (_ & H & _).
    destruct (H sampleToken eq_refl) as [_ H2]. apply H2. vm_compute. reflexivity.
  - destruct (SessionToken_DBToDomain_cases (DBInt64 5)) as (_ & _ & _ & _ & _ & H & _).
    apply H; discriminate.
  - destruct (SessionToken_DBToDomain_cases (DBString "no token")) as (H & _).
    destruct (snd (DefaultSessionTokenConverter_DBToDomain (DBString "no token")))
      as [e|] eqn:E.
    + destruct (H e eq_refl) as [_ [m ->]]. exists m. reflexivity.
    + vm_compute in E. discriminate E.
Defined.

(** One UUID through the mapper. *)
Lemma FormatUUID_ParseUUID_witness :
  ParseUUID (FormatUUID (sampleEntropy 7)) = (sampleEntropy 7, None).
Proof.
  destruct (FormatUUID_ParseUUID (sampleEntropy 7)) as (H & _). apply H. reflexivity.
Defined.

(** [CreateUser] on the mocks of the integration tests. *)
Lemma CreateUser_success_means_witness :
  exists user w',
    CreateUser emailShape ToLowerASCII sampleClock sampleEntropy sampleRequest mockWorld
      = (inr user, w') /\
    email user = "test@example.com" /\ isVerified user = false /\
    metadata user = Some ∅ /\ createdAt user = updatedAt user.
Proof.
  destruct (CreateUser emailShape ToLowerASCII sampleClock sampleEntropy sampleRequest mockWorld)
    as [[e|user] w'] eqn:E.
  - vm_compute in E. discriminate E.
  - exists user, w'. split; [reflexivity|].
    destruct (CreateUser_success_means emailShape ToLowerASCII sampleClock sampleEntropy
                sampleRequest mockWorld w' user E)
      as (r0 & r1 & made & entity & HC & _ & HE & -> & _).
    cbn in HC. injection HC as _ <-.
    vm_compute in HE. injection HE as <-.
    repeat split.
Defined.

(** The same request when the address is taken. *)
Lemma CreateUser_failure_witness :
  let out := CreateUser emailShape ToLowerASCII sampleClock sampleEntropy sampleRequest
               (storedWorld "active") in
  fst out = inl ErrUserAlreadyExists /\ handed (snd out) = [].
Proof.
  cbn zeta.
  destruct (CreateUser_failure emailShape ToLowerASCII sampleClock sampleEntropy sampleRequest
              (storedWorld "active")) as (H1 & H2 & _).
  destruct (H2 eq_refl (mkSingleUser (sampleUser "active")) (sampleUser "active") eq_refl)
    as [H3 _].
  split; [exact H3|].
  destruct (CreateUser emailShape ToLowerASCII sampleClock sampleEntropy sampleRequest
              (storedWorld "active")) as [[e|user] w'] eqn:E.
  - destruct (H1 e w' eq_refl) as [H _]. exact H.
  - discriminate H3.
Defined.




(** A held session that is active and not expired, of an active user. *)
Lemma VerifySession_success_witness :
  exists session user w',
    VerifySession sampleClock sampleToken (sessionWorld "active" 1800000000 true)
      = (inr (session, user), w') /\
    User_IsActive user = true /\
    UserSession_IsValid (sampleClock 0) session = true /\ handed w' = [].
Proof.
  destruct (VerifySession sampleClock sampleToken (sessionWorld "active" 1800000000 true))
    as [[e|[session user]] w'] eqn:E.
  - vm_compute in E. discriminate E.
  - exists session, user, w'. split; [reflexivity|].
    destruct (VerifySession_success sampleClock sampleToken
                (sessionWorld "active" 1800000000 true) w' session user E)
      as (t & s' & r' & _ & _ & _ & H4 & H5 & _ & H7 & _).
    split; [exact H5|]. split; [exact H4 | exact H7].
Defined.

(** The held session expired, deactivated, or of a suspended user. *)
Lemma VerifySession_rejections_witness :
  fst (VerifySession sampleClock sampleToken (sessionWorld "active" 0 true))
    = inl ErrSessionExpired /\
  fst (VerifySession sampleClock sampleToken (sessionWorld "active" 1800000000 false))
    = inl ErrSessionNotFound /\
  fst (VerifySession sampleClock sampleToken (sessionWorld "suspended" 1800000000 true))
    = inl ErrAccountInactive /\
  VerifySession sampleClock "no token" (sessionWorld "active" 1800000000 true)
    = (inl ErrInvalidSessionToken, sessionWorld "active" 1800000000 true).
Proof.
  split; [|split; [|split]].
  - destruct (VerifySession_rejections sampleClock sampleToken (sessionWorld "active" 0 true))
      as (_ & _ & H).
    destruct (H (fst (UUID_Parse sampleToken))) as [_ H']; [vm_compute; reflexivity|].
    destruct (H' _ _ eq_refl) as (_ & H2 & _).
    apply H2; [reflexivity | reflexivity |].
    intros m n Hmn. cbn. lia.
  - destruct (VerifySession_rejections sampleClock sampleToken
                (sessionWorld "active" 1800000000 false)) as (_ & _ & H).
    destruct (H (fst (UUID_Parse sampleToken))) as [_ H']; [vm_compute; reflexivity|].
    destruct (H' _ _ eq_refl) as (H1 & _).
    apply H1. reflexivity.
  - destruct (VerifySession_rejections sampleClock sampleToken
                (sessionWorld "suspended" 1800000000 true)) as (_ & _ & H).
    destruct (H (fst (UUID_Parse sampleToken))) as [_ H']; [vm_compute; reflexivity|].
    destruct (H' _ _ eq_refl) as (_ & _ & H3).
    apply (H3 eq_refl (mkSingleUser (sampleUser "suspended")) (sampleUser "suspended"));
      reflexivity.
  - destruct (VerifySession_rejections sampleClock "no token"
                (sessionWorld "active" 1800000000 true)) as (_ & H & _).
    apply H. vm_compute. discriminate.
Defined.

(** A logout of the held session. *)
Lemma Logout_outcomes_witness :
  let out := Logout sampleToken (sessionWorld "active" 1800000000 true) in
  fst out = inr tt /\
  s_isActive (held (sessionRepo (snd out))) = false /\ handed (snd out) = [].
Proof.
  cbn zeta.
  destruct (Logout_outcomes sampleToken (sessionWorld "active" 1800000000 true))
    as (_ & H & H3 & _).
  destruct (H (fst (UUID_Parse sampleToken)) _ _ ltac:(vm_compute; reflexivity) eq_refl)
    as [H1 H2].
  split; [exact H1|]. split; [rewrite H2; reflexivity | exact H3].
Defined.


(** A key set in the map of [NewUserMetadata], and in the [nil] map. *)
Lemma UserMetadata_Set_Get_witness :
  (exists m', UserMetadata_Set NewUserMetadata "plan" (AnyString "pro") = Some m' /\
     UserMetadata_Get m' "plan" = (AnyString "pro", true)) /\
  UserMetadata_Set None "plan" (AnyString "pro") = None.
Proof.
  split.
  - destruct (UserMetadata_Set_Get NewUserMetadata "plan" "other" (AnyString "pro"))
      as (H & _).
    destruct H as (m' & H1 & H2 & _); [discriminate|].
    exists m'. split; [exact H1 | exact H2].
  - destruct (UserMetadata_Set_Get None "plan" "other" (AnyString "pro")) as (_ & H & _).
    destruct (H eq_refl) as [H1 _]. exact H1.
Defined.
